(** * Sales forecasting backend: model lifecycle and hybrid forecast pipeline

    A shallow embedding of [backend/main.py] and [backend/blob_storage.py].

    Modelling conventions.
    - A Python exception is a value of [exn]; code that can raise returns a
      [result].  The request handlers thread a [World] (relational store,
      queued background tasks, log of calls into the two opaque models, the
      errors the database will answer its next writes with) through a
      state-and-exception monad [M].
    - A timestamp is the number of days since 1970-01-01 (the seeded history
      is dated at midnight; the time of day is not modelled).
    - A quantity is a binary64 float.  What numpy computes on floats
      ([np.log1p], [np.expm1], [np.sin], [np.cos], [np.pi], [clip]) is not
      written out: these are the fields of the object the name [np] is bound
      to.  The same holds for the optimiser behind [Prophet.fit], a field
      of the object the name [Prophet] is bound to, and for the built-in
      [round], a section variable.
    - [generate_live_forecast] reads the module globals [pd], [np] and
      [Prophet].  A [Namespace] says what each of them is bound to;
      [main_globals] is the namespace of [main.py] as it stands, which binds
      none of the three.  Reading an unbound name raises [NameError].
    - A disk or a blob container is a finite map from the path, as the code
      spells it, to the file.  Two spellings of one file are two keys; the
      properties below read and write one spelling. *)

From Stdlib Require Import ZArith List Ascii String Floats Lia.
From Stdlib Require Uint63.
From stdpp Require Import gmap strings list pretty.

Open Scope Z_scope.

(** ** Exceptions and results *)

Inductive exn : Type :=
| HTTPException (status_code : Z) (detail : string)
| PyError (cls : string) (msg : string).

(** [str(e)]: starlette renders an [HTTPException] as "status: detail";
    the built-in exceptions render as their message. *)
Definition str (e : exn) : string :=
  match e with
  | HTTPException c d => pretty c +:+ ": " +:+ d
  | PyError _ msg => msg
  end.

Definition status_of (e : exn) : option Z :=
  match e with
  | HTTPException c _ => Some c
  | PyError _ _ => None
  end.

Inductive result (A : Type) : Type :=
| Ok (a : A)
| Raise (e : exn).
Arguments Ok {A} a.
Arguments Raise {A} e.

Definition is_ok {A} (r : result A) : bool :=
  match r with Ok _ => true | Raise _ => false end.

Definition rbind {A B} (r : result A) (k : A -> result B) : result B :=
  match r with
  | Ok a => k a
  | Raise e => Raise e
  end.

(** ** Calendar: what pandas computes from a timestamp *)

Module Calendar.

(** Proleptic Gregorian date of a day number, as [(year, month, day)]. *)
Definition civil_from_days (d : Z) : Z * Z * Z :=
  let z := d + 719468 in
  let era := z / 146097 in
  let doe := z - era * 146097 in
  let yoe := (doe - doe / 1460 + doe / 36524 - doe / 146096) / 365 in
  let doy := doe - (365 * yoe + yoe / 4 - yoe / 100) in
  let mp := (5 * doy + 2) / 153 in
  let dd := doy - (153 * mp + 2) / 5 + 1 in
  let mm := if mp <? 10 then mp + 3 else mp - 9 in
  let yy := yoe + era * 400 in
  (if mm <=? 2 then yy + 1 else yy, mm, dd).

Definition days_from_civil (y m d : Z) : Z :=
  let y' := if m <=? 2 then y - 1 else y in
  let era := y' / 400 in
  let yoe := y' - era * 400 in
  let doy := (153 * (if 2 <? m then m - 3 else m + 9) + 2) / 5 + d - 1 in
  let doe := yoe * 365 + yoe / 4 - yoe / 100 + doy in
  era * 146097 + doe - 719468.

Definition year (d : Z) : Z := fst (fst (civil_from_days d)).
Definition month (d : Z) : Z := snd (fst (civil_from_days d)).
Definition day (d : Z) : Z := snd (civil_from_days d).

(** [Timestamp.weekday()]: Monday is 0, Sunday is 6. *)
Definition weekday (d : Z) : Z := (d + 3) mod 7.

Definition dayofyear (d : Z) : Z := d - days_from_civil (year d) 1 1 + 1.

Definition weeks_in_year (y : Z) : Z :=
  let p := fun y => (y + y / 4 - y / 100 + y / 400) mod 7 in
  if (p y =? 4) || (p (y - 1) =? 3) then 53 else 52.

(** [Timestamp.isocalendar().week]. *)
Definition isoweek (d : Z) : Z :=
  let w := (dayofyear d - (weekday d + 1) + 10) / 7 in
  if w <? 1 then weeks_in_year (year d - 1)
  else if weeks_in_year (year d) <? w then 1
  else w.

Definition pad2 (n : Z) : string :=
  if n <? 10 then "0" +:+ pretty n else pretty n.

(** [Timestamp.strftime('%Y-%m-%d')]; a pandas timestamp has a year of
    four digits. *)
Definition strftime (d : Z) : string :=
  pretty (year d) +:+ "-" +:+ pad2 (month d) +:+ "-" +:+ pad2 (day d).

End Calendar.

(** ** The exceptions the code and its libraries raise *)

Definition NameError (name : string) : exn :=
  PyError "NameError" ("name '" +:+ name +:+ "' is not defined").
Definition FileNotFoundError (msg : string) : exn := PyError "FileNotFoundError" msg.
Definition ResourceNotFoundError : exn :=
  PyError "ResourceNotFoundError" "The specified blob does not exist.".
Definition AttributeError (msg : string) : exn := PyError "AttributeError" msg.
Definition ValueError (msg : string) : exn := PyError "ValueError" msg.
Definition KeyError (key : string) : exn := PyError "KeyError" ("'" +:+ key +:+ "'").

(** ** Numerics *)

(** [float(n)] of an integer [n]: exact below 2^53 in magnitude, which
    covers the integers the handler converts (months, weeks, years, codes). *)
Definition float_of_Z (z : Z) : float :=
  if z <? 0 then PrimFloat.opp (PrimFloat.of_uint63 (Uint63.of_Z (- z)))
  else PrimFloat.of_uint63 (Uint63.of_Z z).

(** The module [numpy], as far as the handler uses it; [np_clip_min m x]
    is an element of [ndarray.clip(min=m)]. *)
Record numpy : Type := {
  np_pi : float;
  np_log1p : float -> float;
  np_expm1 : float -> float;
  np_sin : float -> float;
  np_cos : float -> float;
  np_clip_min : float -> float -> float
}.

(** The module [pandas]: its frame operations are written out below as
    functions on lists of rows; the module object itself carries nothing. *)
Inductive pandas : Type := pandas_module.


(** ** Lists of timestamps *)

Fixpoint max_list (d : Z) (l : list Z) : Z :=
  match l with
  | [] => d
  | x :: l' => max_list (Z.max d x) l'
  end.

(** [Series.max()] of a column of timestamps; [None] on an empty column. *)
Definition series_max (l : list Z) : option Z :=
  match l with
  | [] => None
  | x :: l' => Some (max_list x l')
  end.

Fixpoint insert_sorted {A} (key : A -> Z) (a : A) (l : list A) : list A :=
  match l with
  | [] => [a]
  | b :: l' =>
      if key a <? key b then a :: l else b :: insert_sorted key a l'
  end.

(** Stable ascending sort on an integer key ([ORDER BY ... ASC],
    [sort_values]). *)
Definition sort_by {A} (key : A -> Z) (l : list A) : list A :=
  foldr (fun a acc => insert_sorted key a acc) [] l.

(** [Series.unique()]: first occurrences, in order. *)
Fixpoint unique (l : list Z) : list Z :=
  match l with
  | [] => []
  | x :: l' => x :: filter (fun y => y <> x) (unique l')
  end.

(** ** Data model *)

(** A row of the [sales_history] table ([SalesRecord]). *)
Record SalesRecord : Type := {
  product_code : string;
  ds : Z;
  y : float
}.

(** A row of the [sales_forecast] table ([ForecastRecord]). *)
Record ForecastRecord : Type := {
  fr_product_code : string;
  forecast_date : Z;
  predicted_sales : float
}.

(** The relational store behind [Prisma]. *)
Record DB : Type := {
  saleshistory : list SalesRecord;
  salesforecast : list ForecastRecord
}.

(** A row of [df_history]: the record's fields and the added [y_log]. *)
Record HistoryRow : Type := {
  h_product_code : string;
  h_ds : Z;
  h_y : float;
  y_log : float
}.

(** ** The two opaque models *)

(** [sklearn.preprocessing.LabelEncoder]: [classes_] is the array of known
    labels, [transform] gives a label's position in it. *)
Record LabelEncoder : Type := { classes_ : list string }.

Fixpoint index_of (x : string) (l : list string) : option Z :=
  match l with
  | [] => None
  | c :: l' =>
      if String.eqb x c then Some 0
      else match index_of x l' with Some i => Some (i + 1) | None => None end
  end.

Definition transform (enc : LabelEncoder) (x : string) : result Z :=
  match index_of x (classes_ enc) with
  | Some i => Ok i
  | None => Raise (ValueError "y contains previously unseen labels")
  end.

(** [lightgbm.Booster]: a feature arity and a function of one feature row. *)
Record Booster : Type := {
  num_feature : Z;
  predict_row : list float -> float
}.

(** [Booster.predict(data)]: one prediction per row; rows of another width
    than the model's arity are refused. *)
Definition Booster_predict (b : Booster) (data : list (list float))
  : result (list float) :=
  if forallb (fun row => Z.of_nat (length row) =? num_feature b) data
  then Ok (map (predict_row b) data)
  else Raise (PyError "LightGBMError"
                "The number of features in data is not the same as it was in training data").

(** An instance of [prophet.Prophet]: the constructor's seasonality
    switches and, once fit, the history dates and the point forecast as a
    function of the date. *)
Record Prophet : Type := {
  yearly_seasonality : bool;
  weekly_seasonality : bool;
  daily_seasonality : bool;
  history_dates : option (list Z);
  yhat : option (Z -> float)
}.

(** [Prophet(yearly_seasonality=..., weekly_seasonality=...,
    daily_seasonality=...)]. *)
Definition Prophet_new (yearly weekly daily : bool) : Prophet :=
  {| yearly_seasonality := yearly; weekly_seasonality := weekly;
     daily_seasonality := daily; history_dates := None; yhat := None |}.

(** The class [prophet.Prophet]: the optimiser behind [fit], from the
    configured model and the columns [ds] and [y] of the frame (the two
    columns [fit] reads) to the fitted point forecast, or an error. *)
Record Prophet_class : Type := {
  Prophet_optimize : Prophet -> list (Z * float) -> result (Z -> float)
}.

(** [Prophet.fit(df)]: fits on the columns [ds] and [y] of [df], records
    the sorted distinct dates and the fitted forecast; a model is fit
    once. *)
Definition Prophet_fit (cls : Prophet_class) (m : Prophet) (df : list HistoryRow)
  : result Prophet :=
  match history_dates m with
  | Some _ => Raise (PyError "Exception" "Prophet object can only be fit once.")
  | None =>
      rbind (Prophet_optimize cls m (map (fun row => (h_ds row, h_y row)) df)) (fun f =>
      Ok {| yearly_seasonality := yearly_seasonality m;
            weekly_seasonality := weekly_seasonality m;
            daily_seasonality := daily_seasonality m;
            history_dates := Some (sort_by (fun d => d) (unique (map h_ds df)));
            yhat := Some f |})
  end.

(** A row of the frame [Prophet.predict] returns, cut to [ds] and [yhat]. *)
Record TrendRow : Type := { t_ds : Z; t_yhat : float }.

(** The first [n] timestamps of [pd.date_range(start, freq='W')] that lie
    strictly after [start]: weekly, anchored on Sunday. *)
Definition future_sundays (start : Z) (n : nat) : list Z :=
  let to_sunday := (6 - Calendar.weekday start) mod 7 in
  let first := if to_sunday =? 0 then start + 7 else start + to_sunday in
  map (fun k => first + 7 * Z.of_nat k) (seq 0 n).

(** [Prophet.make_future_dataframe(periods, freq='W')], with its default
    [include_history=True]: the history dates, then [periods] new ones. *)
Definition make_future_dataframe (m : Prophet) (periods : nat) : result (list Z) :=
  match history_dates m with
  | None => Raise (PyError "Exception" "Model has not been fit.")
  | Some hd =>
      match series_max hd with
      | None => Raise (ValueError "NaTType does not support date_range")
      | Some last_date => Ok (hd ++ future_sundays last_date periods)
      end
  end.

(** [Prophet.predict(df)]: one row per row of [df]. *)
Definition Prophet_predict (m : Prophet) (future : list Z) : result (list TrendRow) :=
  match yhat m with
  | None => Raise (PyError "Exception" "Model has not been fit.")
  | Some f => Ok (map (fun d => {| t_ds := d; t_yhat := f d |}) future)
  end.

(** An object a pickle can hold, other than [None]. *)
Inductive pyobj : Type :=
| PyEncoder (enc : LabelEncoder)
| PyProphet (m : Prophet)
| PyOther (repr : string).

(** ** The module namespace of [main.py] *)

(** What the three global names the handler reads are bound to, if to
    anything. *)
Record Namespace : Type := {
  g_pd : option pandas;
  g_np : option numpy;
  g_Prophet : option Prophet_class
}.

(** [main.py] as it stands: lines 1-11 and 130 are all its imports, and
    none of them binds [pd], [np] or [Prophet]; nor does any other
    statement of the module. *)
Definition main_globals : Namespace :=
  {| g_pd := None; g_np := None; g_Prophet := None |}.

(** Reading a global name. *)
Definition global {A} (binding : option A) (name : string) : result A :=
  match binding with
  | Some a => Ok a
  | None => Raise (NameError name)
  end.

(** ** Storage media *)

(** The manifest: which global model is active and what it must look like. *)
Record Manifest : Type := {
  active_global_model : string;
  expected_features : Z;
  encoder_file : string
}.

Inductive json : Type :=
| JManifest (m : Manifest)
| JEncoder (codes : gmap string Z)
| JProphet (m : Prophet)
| JOther.

(** What a file holds: a pickle of an object or of [None], a LightGBM
    model file, a JSON document, bytes that are none of these, or nothing
    (a file that was opened for writing and not written). *)
Inductive content : Type :=
| Pickle (o : pyobj)
| PickledNone
| LgbmText (b : Booster)
| Json (j : json)
| Garbage
| Empty.

(** A stored file or blob.  [File c]: readable, with content [c].
    [Unreadable e]: there, and [os.path.exists] sees it, but opening or
    reading it raises [e] (permission on the file, device or network
    error).  [Hidden e]: there, but it cannot be stat-ed (no search
    permission on its directory): [os.path.exists] answers [False] and
    opening it raises [e].  A blob container has no existence check: there
    the last two behave alike. *)
Inductive file : Type :=
| File (c : content)
| Unreadable (e : exn)
| Hidden (e : exn).

(** A disk or a blob container: the stored files by path, and the paths
    that cannot be written (or whose directory cannot be made) with the
    error the attempt raises. *)
Record Medium : Type := {
  files : gmap string file;
  unwritable : gmap string exn
}.

(** [os.path.exists(path)]: [False] also when the file cannot be stat-ed. *)
Definition exists_ (d : Medium) (path : string) : bool :=
  match files d !! path with
  | Some (File _) | Some (Unreadable _) => true
  | Some (Hidden _) | None => false
  end.

Definition read (d : Medium) (path : string) (missing : exn) : result content :=
  match files d !! path with
  | None => Raise missing
  | Some (Unreadable e) => Raise e
  | Some (Hidden e) => Raise e
  | Some (File c) => Ok c
  end.

(** Storing [c] under [path], replacing what was there. *)
Definition write (d : Medium) (path : string) (c : content) : result Medium :=
  match unwritable d !! path with
  | Some e => Raise e
  | None => Ok {| files := <[path := File c]> (files d); unwritable := unwritable d |}
  end.

(** [open(path, 'w')]: the file is created, or emptied when it exists. *)
Definition truncate (d : Medium) (path : string) : result Medium :=
  write d path Empty.

(** [pickle.load]: the object, which may be [None]. *)
Definition pickle_load (c : content) : result (option pyobj) :=
  match c with
  | Pickle o => Ok (Some o)
  | PickledNone => Ok None
  | Empty => Raise (PyError "EOFError" "Ran out of input")
  | _ => Raise (PyError "UnpicklingError" "invalid load key")
  end.

Definition json_load (c : content) : result json :=
  match c with
  | Json j => Ok j
  | _ => Raise (PyError "JSONDecodeError" "Expecting value")
  end.

(** [lgb.Booster(model_file=path)]. *)
Definition Booster_load (c : content) : result Booster :=
  match c with
  | LgbmText b => Ok b
  | _ => Raise (PyError "LightGBMError" "Model file doesn't specify the number of classes")
  end.

Definition model_from_json (j : json) : result Prophet :=
  match j with
  | JProphet m => Ok m
  | _ => Raise (KeyError "__fbprophet_version")
  end.

Definition not_yet_fit : exn :=
  ValueError "This can only be used to serialize models that have already been fit.".

(** [prophet.serialize.model_to_json]: refuses a model that was not fit. *)
Definition model_to_json (m : Prophet) : result json :=
  match history_dates m with
  | None => Raise not_yet_fit
  | Some _ => Ok (JProphet m)
  end.

Definition starts_with_slash (s : string) : bool :=
  match s with
  | String c _ => Ascii.eqb c "/"%char
  | EmptyString => false
  end.

Fixpoint ends_with_slash (s : string) : bool :=
  match s with
  | EmptyString => false
  | String c EmptyString => Ascii.eqb c "/"%char
  | String _ s' => ends_with_slash s'
  end.

(** [os.path.join] on two components. *)
Definition path_join (a b : string) : string :=
  if starts_with_slash b then b
  else if String.eqb a EmptyString || ends_with_slash a then a +:+ b
  else a +:+ "/" +:+ b.

(** [repr] of a string, as an f-string prints the elements of a list:
    single quotes unless the string holds a single and no double quote;
    backslash, the quote and control characters escaped.  Bytes above 127
    stand for printable characters and are kept. *)
Definition double_quote : ascii := ascii_of_nat 34.
Definition backslash : ascii := ascii_of_nat 92.

Definition hex_digit (n : nat) : ascii :=
  match String.get n "0123456789abcdef" with
  | Some c => c
  | None => "0"%char
  end.

Definition repr_char (quote c : ascii) : string :=
  let n := nat_of_ascii c in
  if Ascii.eqb c backslash then String backslash (String backslash EmptyString)
  else if Ascii.eqb c quote then String backslash (String quote EmptyString)
  else if (n =? 10)%nat then String backslash "n"
  else if (n =? 13)%nat then String backslash "r"
  else if (n =? 9)%nat then String backslash "t"
  else if (n <? 32)%nat || (n =? 127)%nat
       then String backslash
              (String "x"%char
                 (String (hex_digit (n / 16)) (String (hex_digit (n mod 16)) EmptyString)))
  else String c EmptyString.

Definition repr_str (s : string) : string :=
  let chars := list_ascii_of_string s in
  let has c := existsb (Ascii.eqb c) chars in
  let quote := if has "'"%char && negb (has double_quote) then double_quote
               else "'"%char in
  String quote (String.concat EmptyString (map (repr_char quote) chars)
                +:+ String quote EmptyString).

(** [str] of a list of strings. *)
Definition repr_list (l : list string) : string :=
  "[" +:+ String.concat ", " (map repr_str l) +:+ "]".

(** The process environment the factories and the constructors read: two
    variables, whether the package [azure.storage.blob] can be imported,
    what [BlobServiceClient.from_connection_string] raises on a connection
    string (if anything), the local disk and the blob container. *)
Record Environment : Type := {
  APP_ENV : option string;
  AZURE_STORAGE_CONNECTION_STRING : option string;
  azure_sdk_installed : bool;
  connection_string_error : string -> option exn;
  local_disk : Medium;
  azure_container : Medium
}.

Definition is_ImportError (e : exn) : bool :=
  match e with
  | PyError cls _ => String.eqb cls "ImportError" || String.eqb cls "ModuleNotFoundError"
  | HTTPException _ _ => false
  end.

Definition ModuleNotFoundError : exn :=
  PyError "ModuleNotFoundError" "No module named 'azure'".

(** ** [main.py]: the storage classes *)

Module main.

Class StorageBackend (S : Type) : Type := {
  download_pickle : S -> string -> result (option pyobj);
  upload_pickle : S -> pyobj -> string -> result S;
  load_lgbm : S -> string -> result Booster
}.

Record LocalStorage : Type := {
  base_dir : string;
  disk : Medium
}.

Definition _get_path (self : LocalStorage) (filename : string) : string :=
  path_join (base_dir self) filename.

(** [return pickle.load(f)]: the object, or [None] when that is what the
    pickle holds. *)
Definition LocalStorage_download_pickle (self : LocalStorage) (filename : string)
  : result (option pyobj) :=
  let path := _get_path self filename in
  if negb (exists_ (disk self) path) then Ok None
  else rbind (read (disk self) path (FileNotFoundError path)) pickle_load.

Definition LocalStorage_upload_pickle (self : LocalStorage) (obj : pyobj)
  (filename : string) : result LocalStorage :=
  let path := _get_path self filename in
  rbind (write (disk self) path (Pickle obj))
    (fun d => Ok {| base_dir := base_dir self; disk := d |}).

Fixpoint first_existing (d : Medium) (paths : list string) : option string :=
  match paths with
  | [] => None
  | p :: ps => if exists_ d p then Some p else first_existing d ps
  end.

Definition LocalStorage_load_lgbm (self : LocalStorage) (filename : string)
  : result Booster :=
  let potential_paths :=
    [_get_path self filename; "models/global_lgbm/" +:+ filename; filename] in
  match first_existing (disk self) potential_paths with
  | Some p => rbind (read (disk self) p (FileNotFoundError p)) Booster_load
  | None => Raise (FileNotFoundError
                     ("LGBM model not found in: " +:+ repr_list potential_paths))
  end.

#[global] Instance LocalStorage_backend : StorageBackend LocalStorage := {
  download_pickle := LocalStorage_download_pickle;
  upload_pickle := LocalStorage_upload_pickle;
  load_lgbm := LocalStorage_load_lgbm
}.

(** The blob container, and the local disk that [load_lgbm] stages the
    model file on. *)
Record AzureBlobStorage : Type := {
  container : Medium;
  tmp : Medium
}.

(** [try: ... return pickle.load(stream) except Exception: return None]. *)
Definition AzureBlobStorage_download_pickle (self : AzureBlobStorage)
  (filename : string) : result (option pyobj) :=
  match rbind (read (container self) filename ResourceNotFoundError) pickle_load with
  | Ok o => Ok o
  | Raise _ => Ok None
  end.

Definition AzureBlobStorage_upload_pickle (self : AzureBlobStorage) (obj : pyobj)
  (filename : string) : result AzureBlobStorage :=
  rbind (write (container self) filename (Pickle obj))
    (fun c => Ok {| container := c; tmp := tmp self |}).

(** The staged copy under [/tmp] is read back at once and is not kept in
    the returned state. *)
Definition AzureBlobStorage_load_lgbm (self : AzureBlobStorage) (filename : string)
  : result Booster :=
  let download_path := "/tmp/" +:+ filename in
  rbind (truncate (tmp self) download_path) (fun _ =>
  rbind (read (container self) filename ResourceNotFoundError) (fun c =>
  rbind (write (tmp self) download_path c) (fun t =>
  rbind (read t download_path (FileNotFoundError download_path)) Booster_load))).

#[global] Instance AzureBlobStorage_backend : StorageBackend AzureBlobStorage := {
  download_pickle := AzureBlobStorage_download_pickle;
  upload_pickle := AzureBlobStorage_upload_pickle;
  load_lgbm := AzureBlobStorage_load_lgbm
}.

(** [__init__]: an [ImportError] from inside the [try] is replaced by the
    advice to install the package; every other exception passes. *)
Definition AzureBlobStorage_init (env : Environment) : result AzureBlobStorage :=
  let attempt :=
    if negb (azure_sdk_installed env) then Raise ModuleNotFoundError
    else
      match AZURE_STORAGE_CONNECTION_STRING env with
      | Some EmptyString | None =>
          Raise (ValueError "AZURE_STORAGE_CONNECTION_STRING is missing")
      | Some conn_str =>
          match connection_string_error env conn_str with
          | Some e => Raise e
          | None => Ok {| container := azure_container env; tmp := local_disk env |}
          end
      end in
  match attempt with
  | Ok s => Ok s
  | Raise e =>
      if is_ImportError e
      then Raise (PyError "ImportError"
                    "Run 'uv add azure-storage-blob' for production mode")
      else Raise e
  end.

Inductive Storage : Type :=
| Local (s : LocalStorage)
| Azure (s : AzureBlobStorage).

(** The factory defined in [main.py] itself; the import on line 130 rebinds
    its name to the factory of [blob_storage.py]. *)
Definition get_storage_backend (env : Environment) : result Storage :=
  match APP_ENV env with
  | Some "production" => rbind (AzureBlobStorage_init env) (fun s => Ok (Azure s))
  | _ => Ok (Local {| base_dir := "models_local"; disk := local_disk env |})
  end.

#[global] Instance Storage_backend : StorageBackend Storage := {
  download_pickle := fun s filename =>
    match s with
    | Local l => download_pickle l filename
    | Azure a => download_pickle a filename
    end;
  upload_pickle := fun s obj filename =>
    match s with
    | Local l => rbind (upload_pickle l obj filename) (fun l' => Ok (Local l'))
    | Azure a => rbind (upload_pickle a obj filename) (fun a' => Ok (Azure a'))
    end;
  load_lgbm := fun s filename =>
    match s with
    | Local l => load_lgbm l filename
    | Azure a => load_lgbm a filename
    end
}.

End main.

(** ** [blob_storage.py]: the manifest-driven storage classes *)

Module blob_storage.

(** Subscripting the loaded manifest.  A manifest document has the keys
    [active_global_model] and [global_model_config], the latter with
    [expected_features] and [encoder_file]; a JSON document of another
    shape has not the key that is asked for first. *)
Definition manifest_of (j : json) : result Manifest :=
  match j with
  | JManifest m => Ok m
  | _ => Raise (KeyError "active_global_model")
  end.

Definition config_of (j : json) : result Manifest :=
  match j with
  | JManifest m => Ok m
  | _ => Raise (KeyError "global_model_config")
  end.

Definition contract_violation (expected_feats actual_feats : Z) : exn :=
  ValueError ("⛔ Model Contract Violation! Manifest expects " +:+ pretty expected_feats
              +:+ " cols, but loaded model has " +:+ pretty actual_feats
              +:+ ". Update manifest or retrain model.").

Record LocalStorage : Type := {
  base_dir : string;
  manifest_path : string;
  disk : Medium
}.

Definition LocalStorage_init (d : Medium) (base_dir : string) : LocalStorage :=
  {| base_dir := base_dir;
     manifest_path := path_join (path_join base_dir "global_lgbm") "model_manifest.json";
     disk := d |}.

(** Returns the manifest and the object, whose [manifest_path] the flat
    fallback rebinds. *)
Definition LocalStorage_load_manifest (self : LocalStorage)
  : result (json * LocalStorage) :=
  let located :=
    if negb (exists_ (disk self) (manifest_path self)) then
      let alt_path := path_join (base_dir self) "model_manifest.json" in
      if exists_ (disk self) alt_path then
        Ok {| base_dir := base_dir self; manifest_path := alt_path; disk := disk self |}
      else
        Raise (FileNotFoundError ("CRITICAL: Manifest missing at " +:+ manifest_path self))
    else Ok self in
  rbind located (fun self' =>
  rbind (read (disk self') (manifest_path self') (FileNotFoundError (manifest_path self')))
    (fun c =>
  rbind (json_load c) (fun j => Ok (j, self')))).

Definition LocalStorage_load_global_lgbm (self : LocalStorage) (manifest : json)
  : result Booster :=
  rbind (manifest_of manifest) (fun mf =>
  let filename := active_global_model mf in
  let path := path_join (path_join (base_dir self) "global_lgbm") filename in
  let path :=
    if negb (exists_ (disk self) path) then path_join (base_dir self) filename
    else path in
  if negb (exists_ (disk self) path) then
    Raise (FileNotFoundError ("LGBM model file " +:+ filename +:+ " missing!"))
  else
    rbind (rbind (read (disk self) path (FileNotFoundError path)) Booster_load)
      (fun model =>
    let expected_feats := expected_features mf in
    let actual_feats := num_feature model in
    if negb (actual_feats =? expected_feats) then
      Raise (contract_violation expected_feats actual_feats)
    else Ok model)).

Definition LocalStorage_load_encoder (self : LocalStorage) (manifest : json)
  : result json :=
  rbind (config_of manifest) (fun mf =>
  let filename := encoder_file mf in
  let path := path_join (path_join (base_dir self) "global_lgbm") filename in
  let path :=
    if negb (exists_ (disk self) path) then path_join (base_dir self) filename
    else path in
  rbind (read (disk self) path (FileNotFoundError path)) json_load).

Definition prophet_path (dir product_id : string) : string :=
  path_join dir (product_id +:+ ".json").

Definition LocalStorage_load_prophet_model (self : LocalStorage) (product_id : string)
  : result (option Prophet) :=
  let path := prophet_path (path_join (base_dir self) "prophet_individual") product_id in
  if negb (exists_ (disk self) path) then Ok None
  else
    rbind (read (disk self) path (FileNotFoundError path)) (fun c =>
    rbind (json_load c) (fun j =>
    rbind (model_from_json j) (fun m => Ok (Some m)))).

(** [with open(path, 'w') as f: f.write(model_to_json(model))]: the file is
    opened, and so emptied, before the model is serialised.  Returns the
    outcome and the object with the disk as the call leaves it. *)
Definition LocalStorage_save_prophet_model (self : LocalStorage) (model : Prophet)
  (product_id : string) : result unit * LocalStorage :=
  let directory := path_join (base_dir self) "prophet_individual" in
  let path := prophet_path directory product_id in
  let on d := {| base_dir := base_dir self; manifest_path := manifest_path self;
                 disk := d |} in
  match truncate (disk self) path with
  | Raise e => (Raise e, self)
  | Ok opened =>
      match model_to_json model with
      | Raise e => (Raise e, on opened)
      | Ok data =>
          match write opened path (Json data) with
          | Raise e => (Raise e, on opened)
          | Ok written => (Ok tt, on written)
          end
      end
  end.

Record AzureBlobStorage : Type := {
  container : Medium;
  tmp : Medium
}.

(** [__init__]: whatever goes wrong inside the [try] (the import, the
    missing variable, a connection string the client refuses) is re-raised
    as [ImportError("Azure init failed: ...")]. *)
Definition AzureBlobStorage_init (env : Environment) : result AzureBlobStorage :=
  let attempt :=
    if negb (azure_sdk_installed env) then Raise ModuleNotFoundError
    else
      match AZURE_STORAGE_CONNECTION_STRING env with
      | None => Raise (AttributeError "'NoneType' object has no attribute 'rstrip'")
      | Some conn_str =>
          match connection_string_error env conn_str with
          | Some e => Raise e
          | None => Ok {| container := azure_container env; tmp := local_disk env |}
          end
      end in
  match attempt with
  | Ok s => Ok s
  | Raise e => Raise (PyError "ImportError" ("Azure init failed: " +:+ str e))
  end.

Definition AzureBlobStorage_load_manifest (self : AzureBlobStorage) : result json :=
  rbind (read (container self) "global_lgbm/model_manifest.json" ResourceNotFoundError)
    json_load.

(** [tempfile.gettempdir()] is taken to be [/tmp]. *)
Definition AzureBlobStorage_load_global_lgbm (self : AzureBlobStorage) (manifest : json)
  : result Booster :=
  rbind (manifest_of manifest) (fun mf =>
  let filename := active_global_model mf in
  let blob_path := "global_lgbm/" +:+ filename in
  let local_path := path_join "/tmp" filename in
  rbind (truncate (tmp self) local_path) (fun _ =>
  rbind (read (container self) blob_path ResourceNotFoundError) (fun c =>
  rbind (write (tmp self) local_path c) (fun t =>
  rbind (rbind (read t local_path (FileNotFoundError local_path)) Booster_load)
    (fun model =>
  if negb (num_feature model =? expected_features mf) then
    Raise (ValueError "Cloud Model Contract Violation!")
  else Ok model))))).

Definition AzureBlobStorage_load_encoder (self : AzureBlobStorage) (manifest : json)
  : result json :=
  rbind (config_of manifest) (fun mf =>
  rbind (read (container self) ("global_lgbm/" +:+ encoder_file mf) ResourceNotFoundError)
    json_load).

(** [try: ... return model_from_json(...) except Exception: return None]. *)
Definition AzureBlobStorage_load_prophet_model (self : AzureBlobStorage)
  (product_id : string) : result (option Prophet) :=
  match
    rbind (read (container self) ("prophet_individual/" +:+ product_id +:+ ".json")
             ResourceNotFoundError) (fun c =>
    rbind (json_load c) model_from_json)
  with
  | Ok m => Ok (Some m)
  | Raise _ => Ok None
  end.

(** [data = model_to_json(model)] comes first: nothing is uploaded for a
    model that cannot be serialised. *)
Definition AzureBlobStorage_save_prophet_model (self : AzureBlobStorage)
  (model : Prophet) (product_id : string) : result AzureBlobStorage :=
  rbind (model_to_json model) (fun data =>
  rbind (write (container self) ("prophet_individual/" +:+ product_id +:+ ".json")
           (Json data)) (fun c =>
  Ok {| container := c; tmp := tmp self |})).

(** An object of either class, as the factory returns it. *)
Inductive Storage : Type :=
| Local (s : LocalStorage)
| Azure (s : AzureBlobStorage).

Definition get_storage_backend (env : Environment) : result Storage :=
  match APP_ENV env with
  | Some "production" => rbind (AzureBlobStorage_init env) (fun s => Ok (Azure s))
  | _ => Ok (Local (LocalStorage_init (local_disk env) "./ml_bin"))
  end.

Definition class_name (s : Storage) : string :=
  match s with Local _ => "LocalStorage" | Azure _ => "AzureBlobStorage" end.

Definition no_attribute {A} (s : Storage) (attr : string) : result A :=
  Raise (AttributeError ("'" +:+ class_name s +:+ "' object has no attribute '" +:+ attr +:+ "'")).

(** These classes define none of the three methods [main.py] calls on its
    storage object: each call is an attribute lookup that fails. *)
#[global] Instance Storage_as_main_backend : main.StorageBackend Storage := {
  main.download_pickle := fun s _ => no_attribute s "download_pickle";
  main.upload_pickle := fun s _ _ => no_attribute s "upload_pickle";
  main.load_lgbm := fun s _ => no_attribute s "load_lgbm"
}.

End blob_storage.

(** ** The request monad *)

(** A call into one of the two opaque models. *)
Inductive call : Type :=
| Fit (m : Prophet) (df : list HistoryRow)
| LgbPredict (data : list (list float)).

(** What a request can change: the relational store, the queue of
    background tasks ([storage.upload_pickle, m, filename]), and the log of
    model calls.  [db_errors] is what the database will do to the writes
    still to come, one entry per write in order: [Some e], the write raises
    [e] and changes nothing; [None] or no entry left, it goes through. *)
Record World : Type := {
  db : DB;
  background_tasks : list (Prophet * string);
  calls : list call;
  db_errors : list (option exn)
}.

Definition M (A : Type) : Type := World -> result A * World.

Definition ret {A} (a : A) : M A := fun w => (Ok a, w).
Definition raise {A} (e : exn) : M A := fun w => (Raise e, w).
Definition bind {A B} (c : M A) (k : A -> M B) : M B :=
  fun w =>
    match c w with
    | (Ok a, w') => k a w'
    | (Raise e, w') => (Raise e, w')
    end.
Definition lift {A} (r : result A) : M A := fun w => (r, w).

(** [try: c except Exception as e: h e]. *)
Definition try_except {A} (c : M A) (h : exn -> M A) : M A :=
  fun w =>
    match c w with
    | (Ok a, w') => (Ok a, w')
    | (Raise e, w') => h e w'
    end.

Declare Scope monad_scope.
Delimit Scope monad_scope with M.
Notation "x <- c ;; k" := (bind c (fun x => k))
  (at level 100, c at next level, right associativity) : monad_scope.
Notation "c ;;; k" := (bind c (fun _ => k))
  (at level 100, k at level 200, right associativity) : monad_scope.

Definition record_call (c : call) : M unit :=
  fun w => (Ok tt, {| db := db w; background_tasks := background_tasks w;
                      calls := calls w ++ [c]; db_errors := db_errors w |}).

Definition add_task (m : Prophet) (filename : string) : M unit :=
  fun w => (Ok tt, {| db := db w;
                      background_tasks := background_tasks w ++ [(m, filename)];
                      calls := calls w; db_errors := db_errors w |}).

(** [db.saleshistory.find_many(where={'product_code': p}, order={'ds': 'asc'})]. *)
Definition saleshistory_find_many (p : string) : M (list SalesRecord) :=
  fun w => (Ok (sort_by ds (filter (fun r => product_code r = p) (saleshistory (db w)))), w).

(** [db.salesforecast.find_many(where=..., order={'forecast_date': 'asc'})]. *)
Definition salesforecast_find_many (p : string) : M (list ForecastRecord) :=
  fun w => (Ok (sort_by forecast_date
                  (filter (fun r => fr_product_code r = p) (salesforecast (db w)))), w).

(** One write statement: it takes effect as a whole or raises. *)
Definition db_write (change : DB -> DB) : M unit :=
  fun w =>
    let after d rest :=
      {| db := d; background_tasks := background_tasks w; calls := calls w;
         db_errors := rest |} in
    match db_errors w with
    | Some e :: rest => (Raise e, after (db w) rest)
    | None :: rest => (Ok tt, after (change (db w)) rest)
    | [] => (Ok tt, after (change (db w)) [])
    end.

(** [db.salesforecast.delete_many(where={'product_code': p})]. *)
Definition salesforecast_delete_many (p : string) : M unit :=
  db_write (fun d =>
    {| saleshistory := saleshistory d;
       salesforecast := filter (fun r => fr_product_code r <> p) (salesforecast d) |}).

(** [db.salesforecast.create_many(data=rows)]. *)
Definition salesforecast_create_many (rows : list ForecastRecord) : M unit :=
  db_write (fun d =>
    {| saleshistory := saleshistory d;
       salesforecast := salesforecast d ++ rows |}).

(** ** [main.py]: application state and the feature frame *)

(** The module-level dictionary [models]: keys ['lgb'] and ['encoder'],
    either of which may be missing or hold [None]. *)
Record Models : Type := {
  lgb : option Booster;
  encoder : option pyobj
}.

Definition no_models : Models := {| lgb := None; encoder := None |}.

Definition NoneType_has_no (attr : string) : exn :=
  AttributeError ("'NoneType' object has no attribute '" +:+ attr +:+ "'").

(** [encoder.classes_] on whatever [models.get('encoder')] holds. *)
Definition the_encoder (o : option pyobj) : result LabelEncoder :=
  match o with
  | Some (PyEncoder enc) => Ok enc
  | Some _ => Raise (AttributeError "object has no attribute 'classes_'")
  | None => Raise (NoneType_has_no "classes_")
  end.

(** [lgbm_model.predict] on whatever [models.get('lgb')] holds. *)
Definition the_booster (o : option Booster) : result Booster :=
  match o with
  | Some b => Ok b
  | None => Raise (NoneType_has_no "predict")
  end.

(** A row of [df_features] before the prediction column is added. *)
Record FeatureRow : Type := {
  f_ds : Z;
  prophet_pred_log : float;
  Product_Code : string;
  month : Z;
  week : Z;
  year : Z;
  month_sin : float;
  month_cos : float;
  week_sin : float;
  week_cos : float;
  Product_Code_Encoded : Z
}.

(** The numeric columns of [df_features], by name, as the floats the
    correction model is given. *)
Definition column (name : string) (r : FeatureRow) : option float :=
  match name with
  | "prophet_pred_log" => Some (prophet_pred_log r)
  | "month" => Some (float_of_Z (month r))
  | "week" => Some (float_of_Z (week r))
  | "year" => Some (float_of_Z (year r))
  | "month_sin" => Some (month_sin r)
  | "month_cos" => Some (month_cos r)
  | "week_sin" => Some (week_sin r)
  | "week_cos" => Some (week_cos r)
  | "Product_Code_Encoded" => Some (float_of_Z (Product_Code_Encoded r))
  | _ => None
  end%string.

Fixpoint select_row (names : list string) (r : FeatureRow) : result (list float) :=
  match names with
  | [] => Ok []
  | n :: ns =>
      match column n r with
      | None => Raise (KeyError n)
      | Some v => rbind (select_row ns r) (fun vs => Ok (v :: vs))
      end
  end.

(** [df[names]]: the named columns, in the order of [names]. *)
Fixpoint select (names : list string) (df : list FeatureRow)
  : result (list (list float)) :=
  match df with
  | [] => Ok []
  | r :: df' =>
      rbind (select_row names r) (fun v =>
      rbind (select names df') (fun vs => Ok (v :: vs)))
  end.

(** [df['predicted_sales'] = values]: the lengths must agree. *)
Definition assign_column (df : list FeatureRow) (values : list float)
  : result (list (FeatureRow * float)) :=
  if Nat.eqb (length values) (length df) then Ok (combine df values)
  else Raise (ValueError "Length of values does not match length of index").

Definition features : list string :=
  ["prophet_pred_log"; "Product_Code_Encoded";
   "month_sin"; "month_cos"; "week_sin"; "week_cos"; "year"]%string.

Record ResponseRow : Type := {
  date : string;
  sales : float
}.

Record Response : Type := {
  status : string;
  message : string;
  forecast : list ResponseRow
}.

(** ** [main.py]: startup and the request handlers *)

Section Handlers.

(** The class of [app.state.storage]. *)
Context {Store : Type} `{main.StorageBackend Store}.

(** The built-in [round(x, ndigits)] on floats. *)
Variable round_ : float -> Z -> float.

(** [m.fit(df)], logged. *)
Definition fit (cls : Prophet_class) (m : Prophet) (df : list HistoryRow) : M Prophet :=
  (record_call (Fit m df) ;;; lift (Prophet_fit cls m df))%M.

Record AppState : Type := {
  storage : Store;
  app_db : DB;
  models : Models
}.

(** Step 3 of [lifespan]: the two loads inside [try ... except Exception],
    which prints the error and goes on. *)
Definition load_global_models (storage : Store) : Models :=
  match main.load_lgbm storage "lgb_model.txt" with
  | Raise _ => no_models
  | Ok b =>
      match main.download_pickle storage "product_encoder.pkl" with
      | Raise _ => {| lgb := Some b; encoder := None |}
      | Ok o => {| lgb := Some b; encoder := o |}
      end
  end.

(** [lifespan] up to its [yield]: [Ok] is an application that has started
    and serves requests, [Raise] is a startup that was aborted. *)
Definition lifespan (get_storage_backend : result Store) (connect : result DB)
  : result AppState :=
  rbind get_storage_backend (fun storage =>
  rbind connect (fun db =>
  Ok {| storage := storage; app_db := db; models := load_global_models storage |})).

Definition get_history (product_id : string) : M (list SalesRecord) :=
  (records <- saleshistory_find_many product_id ;;
   match records with
   | [] => raise (HTTPException 404 "Product history not found")
   | _ => ret records
   end)%M.

Definition get_forecast (product_id : string) : M (list ForecastRecord) :=
  (records <- salesforecast_find_many product_id ;;
   match records with
   | [] => raise (HTTPException 404 "Forecasts not found for this product")
   | _ => ret records
   end)%M.

(** A row of [df_history] once [y_log] is added (line 244); the rename of
    line 243 maps each column to itself. *)
Definition history_row (np : numpy) (r : SalesRecord) : HistoryRow :=
  {| h_product_code := product_code r; h_ds := ds r; h_y := y r;
     y_log := np_log1p np (y r) |}.

(** [if m:] on what [download_pickle] returned. *)
Definition truthy (m : option pyobj) : bool :=
  match m with Some _ => true | None => false end.

(** [2 * np.pi * n / period]. *)
Definition angle (np : numpy) (n : Z) (period : float) : float :=
  PrimFloat.div (PrimFloat.mul (PrimFloat.mul 2 (np_pi np)) (float_of_Z n)) period.

Definition feature_row (np : numpy) (product_id : string) (encoded_id : Z) (t : TrendRow)
  : FeatureRow :=
  let mo := Calendar.month (t_ds t) in
  let wk := Calendar.isoweek (t_ds t) in
  {| f_ds := t_ds t;
     prophet_pred_log := t_yhat t;
     Product_Code := product_id;
     month := mo;
     week := wk;
     year := Calendar.year (t_ds t);
     month_sin := np_sin np (angle np mo 12);
     month_cos := np_cos np (angle np mo 12);
     week_sin := np_sin np (angle np wk 52);
     week_cos := np_cos np (angle np wk 52);
     Product_Code_Encoded := encoded_id |}.

Definition encode (encoder : option pyobj) (product_id : string) : result Z :=
  rbind (the_encoder encoder) (fun enc =>
  if bool_decide (product_id ∈ classes_ enc) then transform enc product_id
  else Ok (-1)).

Definition forecast_record (product_id : string) (row : FeatureRow * float)
  : ForecastRecord :=
  {| fr_product_code := product_id;
     forecast_date := f_ds (fst row);
     predicted_sales := snd row |}.

Definition response_row (row : FeatureRow * float) : ResponseRow :=
  {| date := Calendar.strftime (f_ds (fst row)); sales := round_ (snd row) 2 |}.

(** [df[df['ds'] > last]]; against a missing maximum no row compares
    greater. *)
Definition future_only (last : option Z) (df : list (FeatureRow * float))
  : list (FeatureRow * float) :=
  match last with
  | Some l => filter (fun row => l < f_ds (fst row)) df
  | None => []
  end.

(** The body of the [try] block of [generate_live_forecast], in the module
    namespace [g].  Each of [pd], [np], [Prophet] is read where the source
    first uses it: lines 242, 244 and 256/260. *)
Definition live_forecast_body (g : Namespace) (storage : Store) (models : Models)
  (product_id : string) : M Response :=
  (let lgbm_model := lgb models in
   let encoder := encoder models in
   history_records <- saleshistory_find_many product_id ;;
   match history_records with
   | [] =>
       raise (HTTPException 404
                "No sales history found. Add data to 'sales_history' first.")
   | _ =>
       pd <- lift (global (g_pd g) "pd") ;;
       np <- lift (global (g_np g) "np") ;;
       let df_history := map (history_row np) history_records in
       let filename := "prophet_" +:+ product_id +:+ ".pkl" in
       m <- lift (main.download_pickle storage filename) ;;
       let seasonality := (52 <? length df_history)%nat in
       m <- (if truthy m
             then (Prophet <- lift (global (g_Prophet g) "Prophet") ;;
                   fit Prophet (Prophet_new seasonality false false) df_history)
             else (Prophet <- lift (global (g_Prophet g) "Prophet") ;;
                   fit Prophet (Prophet_new seasonality false false) df_history)) ;;
       future <- lift (make_future_dataframe m 104) ;;
       forecast <- lift (Prophet_predict m future) ;;
       let df_features := fun encoded_id =>
         map (feature_row np product_id encoded_id) forecast in
       encoded_id <- lift (encode encoder product_id) ;;
       let df_features := df_features encoded_id in
       booster <- lift (the_booster lgbm_model) ;;
       data <- lift (select features df_features) ;;
       record_call (LgbPredict data) ;;;
       lgb_preds_log <- lift (Booster_predict booster data) ;;
       df_features <- lift (assign_column df_features
                              (map (fun p => np_clip_min np 0 (np_expm1 np p))
                                 lgb_preds_log)) ;;
       add_task m filename ;;;
       let last_history_date := series_max (map h_ds df_history) in
       let df_final := future_only last_history_date df_features in
       let forecast_records := map (forecast_record product_id) df_final in
       let response_data := map response_row df_final in
       salesforecast_delete_many product_id ;;;
       salesforecast_create_many forecast_records ;;;
       ret {| status := "success";
              message := "Forecast updated for " +:+ product_id
                         +:+ ". Model upload queued in background.";
              forecast := response_data |}
   end)%M.

(** [try: body except Exception as e: raise HTTPException(500, str(e))]. *)
Definition generate_live_forecast (g : Namespace) (storage : Store) (models : Models)
  (product_id : string) : M Response :=
  try_except (live_forecast_body g storage models product_id)
    (fun e => raise (HTTPException 500 (str e))).

End Handlers.

(** ** [main.py]: the metrics endpoint *)

(** A row of the [model_metric] table, with the fields [get_metrics] reads. *)
Record ModelMetric : Type := {
  model_version : string;
  wmape : option float;
  accuracy : option float;
  training_run_date : Z
}.

Record MetricsResponse : Type := {
  mr_model_version : string;
  mr_wmape : option float;
  mr_accuracy : option float;
  last_trained : Z
}.

(** [db.modelmetric.find_first(order={'training_run_date': 'desc'})]. *)
Definition modelmetric_find_first (table : list ModelMetric) : option ModelMetric :=
  head (sort_by (fun m => - training_run_date m) table).

(** [get_metrics], on the metric table and the reading of the clock. *)
Definition get_metrics (table : list ModelMetric) (now : Z) : MetricsResponse :=
  match modelmetric_find_first table with
  | None =>
      {| mr_model_version := "None"; mr_wmape := Some 0%float;
         mr_accuracy := Some 0%float; last_trained := now |}
  | Some metric =>
      {| mr_model_version := model_version metric;
         mr_wmape := wmape metric;
         mr_accuracy := accuracy metric;
         last_trained := training_run_date metric |}
  end.

(** ** Notions used to state the properties *)

(** The history of a product as [find_many] returns it. *)
Definition history_of (product_id : string) (w : World) : list SalesRecord :=
  sort_by ds (filter (fun r => product_code r = product_id) (saleshistory (db w))).

(** The forecast rows persisted for a product. *)
Definition persisted (product_id : string) (w : World) : list ForecastRecord :=
  filter (fun r => fr_product_code r = product_id) (salesforecast (db w)).

(** The forecast rows persisted for every other product. *)
Definition persisted_others (product_id : string) (w : World) : list ForecastRecord :=
  filter (fun r => fr_product_code r <> product_id) (salesforecast (db w)).

(** A trend model after a fit on a history. *)
Definition fitted_model (h : list SalesRecord) (f : Z -> float) : Prophet :=
  {| yearly_seasonality := (52 <? length h)%nat;
     weekly_seasonality := false;
     daily_seasonality := false;
     history_dates := Some (sort_by (fun d => d) (unique (map ds h)));
     yhat := Some f |}.

(** Ascending order of a list by an integer key. *)
Fixpoint ascending {A} (key : A -> Z) (l : list A) : Prop :=
  match l with
  | [] => True
  | a :: l' => (forall b, b ∈ l' -> key a <= key b) /\ ascending key l'
  end.

(** What holds of the result [r] and the world [w'] of a computation
    started in [w]. *)
Definition post {A} (c : M A) (w : World) (Q : result A -> World -> Prop) : Prop :=
  Q (fst (c w)) (snd (c w)).

(** The ways the body of a request can end.  Either it raised before line
    296, and then the store and the queue are as they were.  Or it queued
    the upload, and then the global models were loaded and the three names
    bound, and: the delete raised, the forecast table being as it was; or
    the insert raised, the product's rows being gone; or both went through
    and the product's rows are the new ones. *)
Definition request_outcome (g : Namespace) (models : Models) (product_id : string)
  (w : World) (r : result Response) (w' : World) : Prop :=
  saleshistory (db w') = saleshistory (db w)
  /\ ((is_ok r = false /\ db w' = db w /\ background_tasks w' = background_tasks w)
      \/ ((exists m, background_tasks w'
                     = background_tasks w ++ [(m, "prophet_" +:+ product_id +:+ ".pkl")])
          /\ (exists b enc, lgb models = Some b /\ encoder models = Some (PyEncoder enc))
          /\ (exists pd np cls,
                g_pd g = Some pd /\ g_np g = Some np /\ g_Prophet g = Some cls)
          /\ ((exists e rest,
                 db_errors w = Some e :: rest /\ r = Raise e
                 /\ salesforecast (db w') = salesforecast (db w))
              \/ (exists e rest,
                    db_errors w = None :: Some e :: rest /\ r = Raise e
                    /\ salesforecast (db w') = persisted_others product_id w)
              \/ (exists resp rows,
                    r = Ok resp
                    /\ Forall (fun x => fr_product_code x = product_id) rows
                    /\ length (forecast resp) = length rows
                    /\ salesforecast (db w') = persisted_others product_id w ++ rows)))).

(** ** Example data *)

(** A stand-in for numpy: the transforms are the identity, [clip] takes the
    larger of its two arguments. *)
Definition example_numpy : numpy :=
  {| np_pi := 0x1.921fb54442d18p+1%float;
     np_log1p := fun x => x;
     np_expm1 := fun x => x;
     np_sin := fun x => x;
     np_cos := fun x => x;
     np_clip_min := fun m x => if PrimFloat.ltb x m then m else x |}.

(** A stand-in for the class [Prophet]: like prophet its optimiser refuses
    a frame of fewer than two rows; otherwise its point forecast is
    constantly zero. *)
Definition example_Prophet : Prophet_class :=
  {| Prophet_optimize := fun _ df =>
       if (length df <? 2)%nat
       then Raise (ValueError "Dataframe has less than 2 non-NaN rows.")
       else Ok (fun _ => 0%float) |}.

(** The namespace of a [main.py] to which the three imports were added. *)
Definition bound_globals : Namespace :=
  {| g_pd := Some pandas_module;
     g_np := Some example_numpy;
     g_Prophet := Some example_Prophet |}.

(** A stand-in for the built-in [round]. *)
Definition example_round (x : float) (ndigits : Z) : float := x.

Definition empty_medium : Medium := {| files := ∅; unwritable := ∅ |}.

(** A local model directory without any per-product model. *)
Definition example_storage : main.LocalStorage :=
  {| main.base_dir := "models_local"; main.disk := empty_medium |}.

(** The same directory after a model for "P1" has been saved. *)
Definition example_storage_saved : main.LocalStorage :=
  {| main.base_dir := "models_local";
     main.disk :=
       {| files := {[ "models_local/prophet_P1.pkl"%string :=
                        File (Pickle (PyProphet (fitted_model [] (fun _ => 1%float)))) ]};
          unwritable := ∅ |} |}.

Definition example_booster : Booster :=
  {| num_feature := 7; predict_row := fun row => hd 0%float row |}.

Definition example_models : Models :=
  {| lgb := Some example_booster;
     encoder := Some (PyEncoder {| classes_ := ["P0"; "P1"]%string |}) |}.

(** History for "P1" (known to the encoder) and "P9" (unknown to it), none
    for "P2"; 18623 and 18630 are Sunday 2020-12-27 and 2021-01-03.  A
    forecast row of an earlier run is persisted for "P1". *)
Definition example_world : World :=
  {| db := {| saleshistory :=
                [ {| product_code := "P1"; ds := 18630; y := 3%float |};
                  {| product_code := "P9"; ds := 18630; y := 5%float |};
                  {| product_code := "P1"; ds := 18623; y := 4%float |};
                  {| product_code := "P9"; ds := 18625; y := 1%float |} ];
              salesforecast :=
                [ {| fr_product_code := "P1"; forecast_date := 18000;
                     predicted_sales := 9%float |};
                  {| fr_product_code := "P0"; forecast_date := 18637;
                     predicted_sales := 2%float |} ] |};
     background_tasks := [];
     calls := [];
     db_errors := [] |}.

(** A lost connection, as the database client reports it. *)
Definition ConnectionLost : exn :=
  PyError "ClientNotConnectedError" "Client is not connected to the query engine".

(** The same world, with a database that takes the next write and refuses
    the one after it. *)
Definition example_world_failing_insert : World :=
  {| db := db example_world;
     background_tasks := [];
     calls := [];
     db_errors := [None; Some ConnectionLost] |}.

(** A manifest that expects eight features next to a model file that
    reports seven, in a development environment. *)
Definition example_manifest : Manifest :=
  {| active_global_model := "lgb_model.txt";
     expected_features := 8;
     encoder_file := "product_encoder.json" |}.

Definition seven_feature_model : Booster :=
  {| num_feature := 7; predict_row := fun row => hd 0%float row |}.

Definition mismatched_disk : Medium :=
  {| files := {[ "./ml_bin/global_lgbm/model_manifest.json"%string :=
                   File (Json (JManifest example_manifest));
                 "./ml_bin/global_lgbm/lgb_model.txt"%string :=
                   File (LgbmText seven_feature_model);
                 "models_local/lgb_model.txt"%string :=
                   File (LgbmText seven_feature_model) ]};
     unwritable := ∅ |}.

Definition mismatched_env : Environment :=
  {| APP_ENV := None;
     AZURE_STORAGE_CONNECTION_STRING := None;
     azure_sdk_installed := true;
     connection_string_error := fun _ => None;
     local_disk := mismatched_disk;
     azure_container := empty_medium |}.

Definition mismatched_local : blob_storage.LocalStorage :=
  blob_storage.LocalStorage_init mismatched_disk "./ml_bin".

(** The storage object [lifespan] gets in this environment, from the
    factory bound at its call (the one of [blob_storage.py]); with it
    startup leaves [models] empty. *)
Definition shipped_storage : blob_storage.Storage :=
  blob_storage.Local mismatched_local.

(** A transport or permission failure of the blob service. *)
Definition AuthorizationFailure : exn :=
  PyError "HttpResponseError" "This request is not authorized to perform this operation.".

(** A container in which the saved model of "P1" exists under both naming
    schemes but cannot be read. *)
Definition unreadable_container : Medium :=
  {| files := {[ "prophet_individual/P1.json"%string := Unreadable AuthorizationFailure;
                 "prophet_P1.pkl"%string := Unreadable AuthorizationFailure ]};
     unwritable := ∅ |}.

(** A medium on which the saved model of "P1" can be neither read nor
    written, under the path each of the four storage classes uses for it. *)
Definition faulty_medium : Medium :=
  {| files := {[ "./ml_bin/prophet_individual/P1.json"%string := Unreadable AuthorizationFailure;
                 "models_local/prophet_P1.pkl"%string := Unreadable AuthorizationFailure;
                 "prophet_individual/P1.json"%string := Unreadable AuthorizationFailure;
                 "prophet_P1.pkl"%string := Unreadable AuthorizationFailure ]};
     unwritable := {[ "./ml_bin/prophet_individual/P1.json"%string := AuthorizationFailure;
                      "models_local/prophet_P1.pkl"%string := AuthorizationFailure;
                      "prophet_individual/P1.json"%string := AuthorizationFailure;
                      "prophet_P1.pkl"%string := AuthorizationFailure ]} |}.

Definition PermissionError : exn := PyError "PermissionError" "[Errno 13] Permission denied".

(** A disk on which the saved model of "P1" lies in a directory that may
    not be searched, under the path each local storage class uses. *)
Definition hidden_medium : Medium :=
  {| files := {[ "./ml_bin/prophet_individual/P1.json"%string := Hidden PermissionError;
                 "models_local/prophet_P1.pkl"%string := Hidden PermissionError ]};
     unwritable := ∅ |}.

(** A manifest that expects seven features, with the model and the encoder
    it names, on a disk and mirrored in a container. *)
Definition matched_manifest : Manifest :=
  {| active_global_model := "lgb_model.txt";
     expected_features := 7;
     encoder_file := "product_encoder.json" |}.

Definition matched_disk : Medium :=
  {| files := {[ "./ml_bin/global_lgbm/model_manifest.json"%string :=
                   File (Json (JManifest matched_manifest));
                 "./ml_bin/global_lgbm/lgb_model.txt"%string :=
                   File (LgbmText seven_feature_model);
                 "./ml_bin/product_encoder.json"%string :=
                   File (Json (JEncoder {[ "P1"%string := 1 ]})) ]};
     unwritable := ∅ |}.

Definition matched_local : blob_storage.LocalStorage :=
  blob_storage.LocalStorage_init matched_disk "./ml_bin".

Definition matched_remote : blob_storage.AzureBlobStorage :=
  {| blob_storage.container :=
       {| files := {[ "global_lgbm/model_manifest.json"%string :=
                        File (Json (JManifest matched_manifest));
                      "global_lgbm/lgb_model.txt"%string :=
                        File (LgbmText seven_feature_model);
                      "global_lgbm/product_encoder.json"%string :=
                        File (Json (JEncoder {[ "P1"%string := 1 ]})) ]};
          unwritable := ∅ |};
     blob_storage.tmp := empty_medium |}.

(** A disk on which a file that is no model sits in the base directory,
    above a model in the pipeline folder. *)
Definition shadowed_disk : Medium :=
  {| files := {[ "models_local/lgb_model.txt"%string := File Garbage;
                 "models/global_lgbm/lgb_model.txt"%string :=
                   File (LgbmText seven_feature_model) ]};
     unwritable := ∅ |}.

(** Two training runs, the later one second in the table. *)
Definition example_metrics : list ModelMetric :=
  [ {| model_version := "v1"; wmape := Some 0.25%float;
       accuracy := Some 0.75%float; training_run_date := 19000 |};
    {| model_version := "v2"; wmape := None;
       accuracy := None; training_run_date := 19030 |} ].

(** A model as the constructor returns it, not fit. *)
Definition unfitted_model : Prophet := Prophet_new false false false.

(** Closes the case of a request that raised before line 296. *)
Ltac failed_before_writes :=
  split; [reflexivity | left; repeat split; reflexivity].

(** ** Lists, maxima and sorting *)

Lemma max_list_ge_init (l : list Z) (d : Z) : d <= max_list d l.
Proof.
  revert d; induction l as [|x l IH]; intros d; simpl; [lia|].
  specialize (IH (Z.max d x)); lia.
Qed.

Lemma max_list_ge (l : list Z) (d x : Z) : x ∈ l -> x <= max_list d l.
Proof.
  revert d; induction l as [|a l IH]; intros d Hx; simpl.
  - inversion Hx.
  - apply elem_of_cons in Hx as [->|Hx].
    + pose proof (max_list_ge_init l (Z.max d a)); lia.
    + now apply IH.
Qed.

Lemma max_list_in (l : list Z) (d : Z) : max_list d l = d \/ max_list d l ∈ l.
Proof.
  revert d; induction l as [|a l IH]; intros d; simpl; [now left|].
  destruct (IH (Z.max d a)) as [E|E].
  - rewrite E. destruct (Z.max_spec d a) as [[_ ->]|[_ ->]].
    + right; apply elem_of_cons; now left.
    + now left.
  - right; apply elem_of_cons; now right.
Qed.

Lemma series_max_Some (l : list Z) (m : Z) :
  series_max l = Some m <-> m ∈ l /\ forall x, x ∈ l -> x <= m.
Proof.
  destruct l as [|a l]; simpl.
  - split; [discriminate|]. intros [H _]; inversion H.
  - split.
    + intros [= <-]. split.
      * destruct (max_list_in l a) as [->|E]; apply elem_of_cons; auto.
      * intros x Hx. apply elem_of_cons in Hx as [->|Hx].
        -- apply max_list_ge_init.
        -- now apply max_list_ge.
    + intros [Hm Hle]. f_equal. apply Z.le_antisymm.
      * apply Hle. destruct (max_list_in l a) as [->|E]; apply elem_of_cons; auto.
      * apply elem_of_cons in Hm as [->|Hm].
        -- apply max_list_ge_init.
        -- now apply max_list_ge.
Qed.

Lemma series_max_nonempty (l : list Z) : l <> [] -> exists m, series_max l = Some m.
Proof. destruct l; [congruence|]. intros _; simpl; eauto. Qed.

Lemma series_max_same_elements (l l' : list Z) (m : Z) :
  (forall x, x ∈ l <-> x ∈ l') -> series_max l = Some m -> series_max l' = Some m.
Proof.
  intros E H. apply series_max_Some in H as [Hm Hle].
  apply series_max_Some. split; [now apply E|].
  intros x Hx. apply Hle. now apply E.
Qed.

Lemma elem_of_insert_sorted {A} (key : A -> Z) (a x : A) (l : list A) :
  x ∈ insert_sorted key a l <-> x = a \/ x ∈ l.
Proof.
  induction l as [|b l IH]; simpl.
  - rewrite list_elem_of_singleton. split; [auto|]. intros [?|H]; [auto|inversion H].
  - destruct (key a <? key b).
    + now rewrite elem_of_cons.
    + rewrite !elem_of_cons, IH. tauto.
Qed.

Lemma elem_of_sort_by {A} (key : A -> Z) (x : A) (l : list A) :
  x ∈ sort_by key l <-> x ∈ l.
Proof.
  induction l as [|a l IH]; simpl; [reflexivity|].
  unfold sort_by in *; simpl.
  rewrite elem_of_insert_sorted, IH, elem_of_cons. reflexivity.
Qed.

Lemma length_insert_sorted {A} (key : A -> Z) (a : A) (l : list A) :
  length (insert_sorted key a l) = S (length l).
Proof.
  induction l as [|b l IH]; simpl; [reflexivity|].
  destruct (key a <? key b); simpl; [reflexivity|]. now rewrite IH.
Qed.

Lemma length_sort_by {A} (key : A -> Z) (l : list A) :
  length (sort_by key l) = length l.
Proof.
  induction l as [|a l IH]; simpl; [reflexivity|].
  unfold sort_by in *; simpl. now rewrite length_insert_sorted, IH.
Qed.

Lemma elem_of_unique (x : Z) (l : list Z) : x ∈ unique l <-> x ∈ l.
Proof.
  induction l as [|a l IH]; simpl; [reflexivity|].
  rewrite !elem_of_cons, list_elem_of_filter, IH.
  destruct (decide (x = a)); tauto.
Qed.

Lemma filter_map_none {A B} (P : B -> Prop) `{forall b, Decision (P b)}
  (f : A -> B) (l : list A) :
  (forall a, a ∈ l -> ~ P (f a)) -> filter P (map f l) = [].
Proof.
  induction l as [|a l IH]; intros Hl; simpl; [reflexivity|].
  rewrite filter_cons_False by (apply Hl, elem_of_cons; now left).
  apply IH. intros b Hb. apply Hl, elem_of_cons. now right.
Qed.

Lemma filter_map_all {A B} (P : B -> Prop) `{forall b, Decision (P b)}
  (f : A -> B) (l : list A) :
  (forall a, a ∈ l -> P (f a)) -> filter P (map f l) = map f l.
Proof.
  induction l as [|a l IH]; intros Hl; simpl; [reflexivity|].
  rewrite filter_cons_True by (apply Hl, elem_of_cons; now left).
  f_equal. apply IH. intros b Hb. apply Hl, elem_of_cons. now right.
Qed.

(** ** The future frame *)

Lemma length_future_sundays (start : Z) (n : nat) : length (future_sundays start n) = n.
Proof. unfold future_sundays. now rewrite length_map, length_seq. Qed.

Lemma future_sundays_spec (start : Z) (n : nat) (d : Z) :
  d ∈ future_sundays start n ->
  start < d /\ Calendar.weekday d = 6
  /\ exists k, (k < n)%nat /\ d = hd d (future_sundays start n) + 7 * Z.of_nat k.
Proof.
  unfold future_sundays, Calendar.weekday. intros Hd.
  apply list_elem_of_In, in_map_iff in Hd as (k & <- & Hk).
  apply in_seq in Hk.
  set (t := (6 - (start + 3) mod 7) mod 7).
  assert (Ht : t = (6 - (start + 3) mod 7) mod 7) by reflexivity.
  pose proof (Z.mod_pos_bound (start + 3) 7 ltac:(lia)) as Hw.
  pose proof (Z.mod_pos_bound (6 - (start + 3) mod 7) 7 ltac:(lia)) as Hb.
  rewrite Z.mod_small in Ht by lia.
  assert (Hs : start + 3 = 7 * ((start + 3) / 7) + (start + 3) mod 7)
    by (apply Z.div_mod; lia).
  split; [|split].
  - destruct (t =? 0) eqn:E; lia.
  - destruct (t =? 0) eqn:E.
    + apply Z.eqb_eq in E.
      replace (start + 7 + 7 * Z.of_nat k + 3)
        with ((start + 3) + (1 + Z.of_nat k) * 7) by lia.
      rewrite Z.mod_add by lia. lia.
    + replace (start + t + 7 * Z.of_nat k + 3)
        with (6 + ((start + 3) / 7 + Z.of_nat k) * 7) by lia.
      rewrite Z.mod_add by lia. reflexivity.
  - exists k. split; [lia|].
    destruct n as [|n]; [lia|]. simpl. lia.
Qed.

Lemma future_sundays_after (start : Z) (n : nat) (d : Z) :
  d ∈ future_sundays start n -> start < d.
Proof. intros Hd. now apply future_sundays_spec in Hd. Qed.

Lemma future_sundays_weekly (start : Z) (n : nat) :
  exists first,
    start < first <= start + 7
    /\ future_sundays start n = map (fun k => first + 7 * Z.of_nat k) (seq 0 n).
Proof.
  unfold future_sundays.
  pose proof (Z.mod_pos_bound (6 - Calendar.weekday start) 7 ltac:(lia)) as Hb.
  eexists. split; [|reflexivity].
  destruct (_ =? 0) eqn:E; [lia|]. apply Z.eqb_neq in E. lia.
Qed.

(** ** One request, step by step *)

Lemma post_bind {A B} (c : M A) (k : A -> M B) (w : World)
  (Q : result B -> World -> Prop) :
  post c w (fun r w1 =>
              match r with
              | Ok a => post (k a) w1 Q
              | Raise e => Q (Raise e) w1
              end) ->
  post (bind c k) w Q.
Proof. unfold post, bind. destruct (c w) as [[a|e] w1]; cbn [fst snd]; auto. Qed.

Lemma post_lift {A} (r : result A) (w : World) (Q : result A -> World -> Prop) :
  Q r w -> post (lift r) w Q.
Proof. auto. Qed.

Lemma post_find_history (p : string) (w : World)
  (Q : result (list SalesRecord) -> World -> Prop) :
  Q (Ok (history_of p w)) w -> post (saleshistory_find_many p) w Q.
Proof. auto. Qed.

Lemma post_ret {A} (a : A) (w : World) (Q : result A -> World -> Prop) :
  Q (Ok a) w -> post (ret a) w Q.
Proof. auto. Qed.

Lemma post_raise {A} (e : exn) (w : World) (Q : result A -> World -> Prop) :
  Q (Raise e) w -> post (raise e) w Q.
Proof. auto. Qed.

Lemma post_record_call (c : call) (w : World) (Q : result unit -> World -> Prop) :
  Q (Ok tt) {| db := db w; background_tasks := background_tasks w;
               calls := calls w ++ [c]; db_errors := db_errors w |} ->
  post (record_call c) w Q.
Proof. auto. Qed.

Lemma post_add_task (m : Prophet) (filename : string) (w : World)
  (Q : result unit -> World -> Prop) :
  Q (Ok tt) {| db := db w; background_tasks := background_tasks w ++ [(m, filename)];
               calls := calls w; db_errors := db_errors w |} ->
  post (add_task m filename) w Q.
Proof. auto. Qed.

Lemma post_db_write (change : DB -> DB) (w : World) (Q : result unit -> World -> Prop) :
  (forall e rest, db_errors w = Some e :: rest ->
     Q (Raise e) {| db := db w; background_tasks := background_tasks w;
                    calls := calls w; db_errors := rest |}) ->
  (forall rest, db_errors w = None :: rest \/ (db_errors w = [] /\ rest = []) ->
     Q (Ok tt) {| db := change (db w); background_tasks := background_tasks w;
                  calls := calls w; db_errors := rest |}) ->
  post (db_write change) w Q.
Proof.
  intros Hfail Hok. unfold post, db_write.
  destruct (db_errors w) as [|[e|] rest] eqn:E; cbn [fst snd].
  - apply Hok. now right.
  - now apply Hfail.
  - apply Hok. now left.
Qed.

Lemma if_same {A} (b : bool) (x : A) : (if b then x else x) = x.
Proof. now destruct b. Qed.

Section Request.

Context {Store : Type} `{main.StorageBackend Store}.
Variable round_ : float -> Z -> float.
Variables (g : Namespace) (storage : Store) (models : Models) (product_id : string).

(** Every run of the body ends in one of the ways of [request_outcome]. *)
Lemma body_outcome (w : World) :
  post (live_forecast_body round_ g storage models product_id) w
    (request_outcome g models product_id w).
Proof.
  unfold live_forecast_body. cbv zeta.
  apply post_bind, post_find_history.
  destruct (history_of product_id w) as [|r0 h'] eqn:Hh.
  { apply post_raise. failed_before_writes. }
  set (h := r0 :: h') in *.
  apply post_bind, post_lift.
  destruct (g_pd g) as [pd|] eqn:Hpd; cbn [global]; [|failed_before_writes].
  apply post_bind, post_lift.
  destruct (g_np g) as [np|] eqn:Hnp; cbn [global]; [|failed_before_writes].
  apply post_bind, post_lift.
  destruct (main.download_pickle storage _) as [mo|err]; [|failed_before_writes].
  rewrite if_same.
  apply post_bind, post_bind, post_lift.
  destruct (g_Prophet g) as [cls|] eqn:Hcls; cbn [global]; [|failed_before_writes].
  unfold fit. apply post_bind, post_record_call, post_lift.
  destruct (Prophet_fit cls _ _) as [m|err]; [|failed_before_writes].
  apply post_bind, post_lift.
  destruct (make_future_dataframe m 104) as [future|err]; [|failed_before_writes].
  apply post_bind, post_lift.
  destruct (Prophet_predict m future) as [trend|err]; [|failed_before_writes].
  apply post_bind, post_lift.
  destruct (encode (encoder models) product_id) as [encoded_id|err] eqn:Henc;
    [|failed_before_writes].
  apply post_bind, post_lift.
  destruct (lgb models) as [booster|] eqn:Hlgb; cbn [the_booster];
    [|failed_before_writes].
  apply post_bind, post_lift.
  destruct (select features _) as [data|err]; [|failed_before_writes].
  apply post_bind, post_record_call.
  apply post_bind, post_lift.
  destruct (Booster_predict booster data) as [lgb_preds_log|err];
    [|failed_before_writes].
  apply post_bind, post_lift.
  destruct (assign_column _ _) as [df_features|err]; [|failed_before_writes].
  apply post_bind, post_add_task.
  unfold salesforecast_delete_many, salesforecast_create_many.
  apply post_bind, post_db_write; cbn [db background_tasks calls db_errors].
  { intros e rest Herr. split; [reflexivity|]. right.
    split; [eauto|]. split.
    { unfold encode in Henc. destruct (encoder models) as [[enc| |]|]; try discriminate.
      eauto. }
    split; [eauto 7|]. left. eauto. }
  intros rest Hrest.
  apply post_bind, post_db_write; cbn [db background_tasks calls db_errors].
  { intros e rest' ->. split; [reflexivity|]. right.
    split; [eauto|]. split.
    { unfold encode in Henc. destruct (encoder models) as [[enc| |]|]; try discriminate.
      eauto. }
    split; [eauto 7|]. right. left.
    destruct Hrest as [Hrest|[_ Hrest]]; [|discriminate]. eauto. }
  intros rest' _. apply post_ret.
  split; [reflexivity|]. right.
  split; [eauto|]. split.
  { unfold encode in Henc. destruct (encoder models) as [[enc| |]|]; try discriminate.
    eauto. }
  split; [eauto 7|]. right. right.
  eexists _, _. split; [reflexivity|]. cbn [forecast salesforecast].
  split; [|split; [|reflexivity]].
  - apply Forall_forall. intros x Hx.
    apply list_elem_of_In, in_map_iff in Hx as (row & <- & _). reflexivity.
  - now rewrite !length_map.
Qed.

(** The handler changes the world as its body does. *)
Lemma generate_world (w : World) :
  snd (generate_live_forecast round_ g storage models product_id w)
  = snd (live_forecast_body round_ g storage models product_id w).
Proof.
  unfold generate_live_forecast, try_except.
  now destruct (live_forecast_body _ _ _ _ _ w) as [[resp|e] w'].
Qed.

(** A body that finds the name [pd] unbound stops on line 242. *)
Lemma body_without_pd (w : World) :
  g_pd g = None ->
  live_forecast_body round_ g storage models product_id w
  = (Raise (match history_of product_id w with
            | [] => HTTPException 404
                      "No sales history found. Add data to 'sales_history' first."
            | _ => NameError "pd"
            end), w).
Proof.
  intros Hpd. unfold live_forecast_body. cbv zeta.
  unfold bind at 1. unfold saleshistory_find_many. fold (history_of product_id w).
  destruct (history_of product_id w) as [|r0 h']; [reflexivity|].
  unfold bind at 1. rewrite Hpd. reflexivity.
Qed.

End Request.

(** [main.py] as it stands: a request for a product that has history stops
    on line 242, where [pd] is read, and is answered with status 500; the
    world is left as it was. *)
Lemma shipped_request {Store : Type} `{main.StorageBackend Store}
  (round_ : float -> Z -> float) (storage : Store) (models : Models)
  (product_id : string) (w : World) :
  history_of product_id w <> [] ->
  generate_live_forecast round_ main_globals storage models product_id w
  = (Raise (HTTPException 500 "name 'pd' is not defined"), w).
Proof.
  intros Hne. unfold generate_live_forecast, try_except.
  rewrite body_without_pd by reflexivity.
  destruct (history_of product_id w); [congruence|reflexivity].
Qed.

(** ** What a request leaves in the forecast table *)

Lemma persisted_after_delete (product_id : string) (l : list ForecastRecord) :
  filter (fun r => fr_product_code r = product_id)
    (filter (fun r => fr_product_code r <> product_id) l) = [].
Proof.
  induction l as [|r l IH]; [reflexivity|].
  destruct (decide (fr_product_code r = product_id)) as [E|E].
  - rewrite (filter_cons_False (fun r => fr_product_code r <> product_id)) by tauto.
    exact IH.
  - rewrite (filter_cons_True (fun r => fr_product_code r <> product_id)) by tauto.
    rewrite filter_cons_False by tauto. exact IH.
Qed.

Lemma others_after_delete (product_id : string) (l : list ForecastRecord) :
  filter (fun r => fr_product_code r <> product_id)
    (filter (fun r => fr_product_code r <> product_id) l)
  = filter (fun r => fr_product_code r <> product_id) l.
Proof.
  induction l as [|r l IH]; [reflexivity|].
  destruct (decide (fr_product_code r = product_id)) as [E|E].
  - rewrite (filter_cons_False (fun r => fr_product_code r <> product_id)) by tauto.
    exact IH.
  - rewrite (filter_cons_True (fun r => fr_product_code r <> product_id)) by tauto.
    rewrite filter_cons_True by tauto. now rewrite IH.
Qed.

Lemma other_after_delete (product_id other : string) (l : list ForecastRecord) :
  other <> product_id ->
  filter (fun r => fr_product_code r = other)
    (filter (fun r => fr_product_code r <> product_id) l)
  = filter (fun r => fr_product_code r = other) l.
Proof.
  intros Hne. induction l as [|r l IH]; [reflexivity|].
  destruct (decide (fr_product_code r = product_id)) as [E|E].
  - rewrite (filter_cons_False (fun r => fr_product_code r <> product_id)) by tauto.
    rewrite filter_cons_False by congruence. exact IH.
  - rewrite (filter_cons_True (fun r => fr_product_code r <> product_id)) by tauto.
    destruct (decide (fr_product_code r = other)) as [E'|E'].
    + rewrite !filter_cons_True by assumption. now rewrite IH.
    + rewrite !filter_cons_False by assumption. exact IH.
Qed.

Lemma filter_rows_of_product (product_id : string) (P : ForecastRecord -> Prop)
  `{forall r, Decision (P r)} (rows : list ForecastRecord) :
  Forall (fun x => fr_product_code x = product_id) rows ->
  (forall r, fr_product_code r = product_id -> ~ P r) ->
  filter P rows = [].
Proof.
  intros Hrows HP. induction Hrows as [|r rows Hr _ IH]; [reflexivity|].
  rewrite filter_cons_False by now apply HP. exact IH.
Qed.

(** However a request ends, the rows of the other products are as before. *)
Lemma outcome_isolation (g : Namespace) (models : Models) (product_id : string)
  (w w' : World) (r : result Response) :
  request_outcome g models product_id w r w' ->
  persisted_others product_id w' = persisted_others product_id w
  /\ (forall other, other <> product_id -> persisted other w' = persisted other w).
Proof.
  intros (_ & [(_ & Hdb & _)|(_ & _ & _ & Hwrites)]).
  { unfold persisted_others, persisted. rewrite Hdb. auto. }
  unfold persisted_others, persisted.
  destruct Hwrites as [(e & rest & _ & _ & ->)|[(e & rest & _ & _ & ->)
                       |(resp & rows & _ & Hrows & _ & ->)]].
  - auto.
  - unfold persisted_others. split; [apply others_after_delete|].
    intros other Hne. now apply other_after_delete.
  - unfold persisted_others. rewrite filter_app, others_after_delete.
    rewrite (filter_rows_of_product product_id _ rows Hrows) by tauto.
    split; [apply app_nil_r|].
    intros other Hne. rewrite filter_app, other_after_delete by exact Hne.
    rewrite (filter_rows_of_product product_id _ rows Hrows) by congruence.
    apply app_nil_r.
Qed.

(** ** The encoder *)

Lemma index_of_elem (x : string) (l : list string) :
  x ∈ l -> exists i, index_of x l = Some i /\ 0 <= i.
Proof.
  induction l as [|c l IH]; intros Hx; [inversion Hx|].
  simpl. destruct (String.eqb x c) eqn:E.
  - exists 0. split; [reflexivity|lia].
  - apply String.eqb_neq in E.
    apply elem_of_cons in Hx as [Hx|Hx]; [contradiction|].
    destruct (IH Hx) as (i & -> & Hi). exists (i + 1). split; [reflexivity|lia].
Qed.

Lemma encode_unknown (models : Models) (enc : LabelEncoder) (product_id : string) :
  encoder models = Some (PyEncoder enc) -> product_id ∉ classes_ enc ->
  encode (encoder models) product_id = Ok (-1).
Proof.
  intros -> Hin. unfold encode. cbn [the_encoder rbind].
  now rewrite bool_decide_eq_false_2 by exact Hin.
Qed.

(** ** The claims *)

(** C1, as the code behaves.  For a product without sales history
    [generate_live_forecast] raises its 404 inside its own [try] block; the
    blanket [except Exception] catches it and the caller receives status
    500, the 404 surviving only as text in the detail.  The world is left
    as it was: no call into the trend model, nothing written, nothing
    queued.  (The claim asks for status 404 at the caller.)  This holds in
    every module namespace: the check comes before the first of the three
    names is read. *)
Theorem C1_empty_history_answers_500 {Store : Type} `{main.StorageBackend Store}
  (round_ : float -> Z -> float) (g : Namespace)
  (storage : Store) (models : Models) (product_id : string) (w : World) :
  history_of product_id w = [] ->
  generate_live_forecast round_ g storage models product_id w
  = (Raise (HTTPException 500
              "404: No sales history found. Add data to 'sales_history' first."), w).
Proof.
  intros Hh.
  unfold generate_live_forecast, try_except, live_forecast_body.
  unfold bind at 1. unfold saleshistory_find_many. fold (history_of product_id w).
  rewrite Hh. reflexivity.
Qed.

Lemma C1_empty_history_witness :
  generate_live_forecast example_round main_globals
    shipped_storage no_models "P2" example_world
  = (Raise (HTTPException 500
              "404: No sales history found. Add data to 'sales_history' first."),
     example_world).
Proof.
  apply (C1_empty_history_answers_500 example_round main_globals
           shipped_storage no_models "P2" example_world).
  vm_compute. reflexivity.
Defined.

(** C3, as the code behaves.  [main.py] binds neither [pd] nor [np]: for a
    product with history the handler raises [NameError] on line 242, before
    any transform, and answers status 500; nothing is fit and nothing is
    predicted.  And were the names bound, the trend model would still not
    be fit on the transformed quantities: line 244 adds [y_log] as a new
    column, line 243 renames nothing, and [fit] reads the column [y], so
    the fit comes out the same whatever [np.log1p] returns. *)
Theorem C3_history_never_transformed {Store : Type} `{main.StorageBackend Store}
  (round_ : float -> Z -> float)
  (storage : Store) (models : Models) (product_id : string) (w : World) :
  history_of product_id w <> [] ->
  generate_live_forecast round_ main_globals storage models product_id w
  = (Raise (HTTPException 500 "name 'pd' is not defined"), w)
  /\ (forall (cls : Prophet_class) (np np' : numpy) (m : Prophet),
        Prophet_fit cls m (map (history_row np) (history_of product_id w))
        = Prophet_fit cls m (map (history_row np') (history_of product_id w))).
Proof.
  intros Hne. split; [now apply shipped_request|].
  intros cls np np' m. unfold Prophet_fit. rewrite !map_map. reflexivity.
Qed.

Lemma C3_example_witness :
  generate_live_forecast example_round main_globals shipped_storage no_models
    "P1" example_world
  = (Raise (HTTPException 500 "name 'pd' is not defined"), example_world)
  /\ (forall (cls : Prophet_class) (np np' : numpy) (m : Prophet),
        Prophet_fit cls m (map (history_row np) (history_of "P1" example_world))
        = Prophet_fit cls m (map (history_row np') (history_of "P1" example_world))).
Proof.
  apply (C3_history_never_transformed example_round shipped_storage no_models
           "P1" example_world).
  vm_compute. discriminate.
Defined.

(** C5, as the code behaves.  For a product whose history is not empty,
    known to the encoder or not, [main.py] as it stands returns no
    forecast: the handler raises [NameError] on line 242 and answers status
    500.  No row is returned, and the forecast table is as before, so no
    row dated after the history has been persisted. *)
Theorem C5_product_with_history_gets_no_forecast {Store : Type}
  `{main.StorageBackend Store} (round_ : float -> Z -> float)
  (storage : Store) (models : Models) (product_id : string) (w : World) :
  history_of product_id w <> [] ->
  let run := generate_live_forecast round_ main_globals storage models product_id w in
  fst run = Raise (HTTPException 500 "name 'pd' is not defined")
  /\ salesforecast (db (snd run)) = salesforecast (db w)
  /\ persisted product_id (snd run) = persisted product_id w.
Proof.
  intros Hne run. subst run. rewrite shipped_request by exact Hne.
  repeat split.
Qed.

Lemma C5_known_product_witness :
  fst (generate_live_forecast example_round main_globals
         shipped_storage no_models "P1" example_world)
  = Raise (HTTPException 500 "name 'pd' is not defined")
  /\ persisted "P1" (snd (generate_live_forecast example_round main_globals
                            shipped_storage no_models "P1"
                            example_world))
     = [ {| fr_product_code := "P1"; forecast_date := 18000;
            predicted_sales := 9%float |} ].
Proof.
  destruct (C5_product_with_history_gets_no_forecast example_round
              shipped_storage no_models "P1" example_world)
    as (Hrun & _ & Hkept).
  - vm_compute. discriminate.
  - split; [exact Hrun|]. rewrite Hkept. reflexivity.
Defined.

(** C6, as the code behaves.  The encoding step of lines 280-284 does give
    a product the encoder does not know the code -1, and does not fail.
    But [main.py] as it stands never reaches that step: for a product with
    history the handler raises [NameError] on line 242 and answers status
    500, so the request does not complete and returns no prediction. *)
Theorem C6_unseen_product_gets_no_forecast {Store : Type} `{main.StorageBackend Store}
  (round_ : float -> Z -> float)
  (storage : Store) (models : Models) (product_id : string) (w : World) :
  history_of product_id w <> [] ->
  (forall enc, product_id ∉ classes_ enc ->
     encode (Some (PyEncoder enc)) product_id = Ok (-1))
  /\ generate_live_forecast round_ main_globals storage models product_id w
     = (Raise (HTTPException 500 "name 'pd' is not defined"), w).
Proof.
  intros Hne. split.
  - intros enc Hnew.
    now apply (encode_unknown {| lgb := None; encoder := Some (PyEncoder enc) |} enc).
  - now apply shipped_request.
Qed.

Lemma C6_unseen_product_witness :
  encode (encoder example_models) "P9" = Ok (-1)
  /\ generate_live_forecast example_round main_globals
       shipped_storage no_models "P9" example_world
     = (Raise (HTTPException 500 "name 'pd' is not defined"), example_world).
Proof.
  destruct (C6_unseen_product_gets_no_forecast example_round
              shipped_storage no_models "P9" example_world)
    as (Hcode & Hrun).
  - vm_compute. discriminate.
  - split; [|exact Hrun].
    apply (Hcode {| classes_ := ["P0"; "P1"]%string |}).
    intros Hin. apply list_elem_of_In in Hin. simpl in Hin.
    destruct Hin as [E|[E|[]]]; discriminate.
Defined.

(** C7, as the code behaves.  With [main.py] as it stands, two requests in
    succession for a product with history both fail on line 242 with status
    500.  Neither deletes nor inserts: after each of them the product's
    persisted rows are the ones that were there before the first, so the
    set is not replaced and rows of an earlier run stay. *)
Theorem C7_rerun_replaces_nothing {Store : Type} `{main.StorageBackend Store}
  (round_ : float -> Z -> float)
  (storage : Store) (models : Models) (product_id : string) (w : World) :
  history_of product_id w <> [] ->
  let run := generate_live_forecast round_ main_globals storage models product_id in
  let w1 := snd (run w) in
  let w2 := snd (run w1) in
  is_ok (fst (run w)) = false
  /\ is_ok (fst (run w1)) = false
  /\ persisted product_id w1 = persisted product_id w
  /\ persisted product_id w2 = persisted product_id w.
Proof.
  intros Hne run w1 w2. subst w2 w1 run.
  repeat (rewrite ?(shipped_request round_ storage models product_id w Hne);
          cbn [fst snd]).
  repeat split.
Qed.

Lemma C7_rerun_witness :
  let run := generate_live_forecast example_round main_globals shipped_storage
               no_models "P1" in
  is_ok (fst (run example_world)) = false
  /\ persisted "P1" (snd (run (snd (run example_world))))
     = [ {| fr_product_code := "P1"; forecast_date := 18000;
            predicted_sales := 9%float |} ].
Proof.
  destruct (C7_rerun_replaces_nothing example_round shipped_storage no_models
              "P1" example_world) as (Hfirst & _ & _ & Hkept).
  - vm_compute. discriminate.
  - split; [exact Hfirst|]. rewrite Hkept. reflexivity.
Defined.

(** C8, as the code behaves.  The list of lines 287-288 names the seven
    columns in the claimed order.  But with [main.py] as it stands no
    feature vector is ever assembled: for a product with history the
    handler raises [NameError] on line 242 ([np], which lines 274-277 need,
    is not bound either), answers status 500, and makes no call into the
    correction model. *)
Theorem C8_no_feature_vector_is_passed {Store : Type} `{main.StorageBackend Store}
  (round_ : float -> Z -> float)
  (storage : Store) (models : Models) (product_id : string) (w : World) :
  history_of product_id w <> [] ->
  let run := generate_live_forecast round_ main_globals storage models product_id w in
  features = ["prophet_pred_log"; "Product_Code_Encoded";
              "month_sin"; "month_cos"; "week_sin"; "week_cos"; "year"]%string
  /\ g_np main_globals = None
  /\ fst run = Raise (HTTPException 500 "name 'pd' is not defined")
  /\ (forall data, LgbPredict data ∈ calls (snd run) -> LgbPredict data ∈ calls w).
Proof.
  intros Hne run. subst run. rewrite shipped_request by exact Hne.
  repeat split. auto.
Qed.

Lemma C8_example_witness :
  fst (generate_live_forecast example_round main_globals shipped_storage no_models
         "P1" example_world)
  = Raise (HTTPException 500 "name 'pd' is not defined")
  /\ (forall data,
        LgbPredict data
        ∉ calls (snd (generate_live_forecast example_round main_globals shipped_storage
                        no_models "P1" example_world))).
Proof.
  destruct (C8_no_feature_vector_is_passed example_round shipped_storage no_models
              "P1" example_world) as (_ & _ & Hrun & Hcalls).
  - vm_compute. discriminate.
  - split; [exact Hrun|]. intros data Hin. apply Hcalls in Hin. inversion Hin.
Defined.

(** C9, as the code behaves.  With [main.py] as it stands no trend model is
    constructed, with or without yearly seasonality: whatever the length of
    a non-empty history, the handler raises [NameError] on line 242, before
    line 252 computes the switch, and [Prophet], which lines 256 and 260
    call, is not bound either.  The request is answered with status 500 and
    no fit is logged. *)
Theorem C9_no_trend_model_is_constructed {Store : Type} `{main.StorageBackend Store}
  (round_ : float -> Z -> float)
  (storage : Store) (models : Models) (product_id : string) (w : World) :
  history_of product_id w <> [] ->
  let run := generate_live_forecast round_ main_globals storage models product_id w in
  g_Prophet main_globals = None
  /\ fst run = Raise (HTTPException 500 "name 'pd' is not defined")
  /\ (forall m df, Fit m df ∈ calls (snd run) -> Fit m df ∈ calls w)
  /\ background_tasks (snd run) = background_tasks w.
Proof.
  intros Hne run. subst run. rewrite shipped_request by exact Hne.
  repeat split. auto.
Qed.

Lemma C9_two_observations_witness :
  length (history_of "P1" example_world) = 2%nat
  /\ fst (generate_live_forecast example_round main_globals shipped_storage
            no_models "P1" example_world)
     = Raise (HTTPException 500 "name 'pd' is not defined")
  /\ (forall m df,
        Fit m df
        ∉ calls (snd (generate_live_forecast example_round main_globals shipped_storage
                        no_models "P1" example_world))).
Proof.
  destruct (C9_no_trend_model_is_constructed example_round shipped_storage
              no_models "P1" example_world) as (_ & Hrun & Hcalls & _).
  - vm_compute. discriminate.
  - split; [reflexivity|]. split; [exact Hrun|].
    intros m df Hin. apply Hcalls in Hin. inversion Hin.
Defined.

(** C10, as the code behaves.  With [main.py] as it stands the answer is
    indeed the same whether or not a saved trend model exists, but not
    because a fresh model is fit in both branches: in neither is a model
    constructed.  For a product with history the handler raises [NameError]
    on line 242, before the saved model is even looked up on line 248.
    Whatever the two storage objects hold, both requests are answered with
    status 500, nothing is fit and no upload is queued. *)
Theorem C10_no_model_in_either_branch {Store1 Store2 : Type}
  `{main.StorageBackend Store1} `{main.StorageBackend Store2}
  (round_ : float -> Z -> float)
  (found : Store1) (absent : Store2) (models : Models) (product_id : string)
  (w : World) :
  history_of product_id w <> [] ->
  let run_found := generate_live_forecast round_ main_globals found models product_id w in
  let run_absent := generate_live_forecast round_ main_globals absent models product_id w in
  run_found = run_absent
  /\ fst run_found = Raise (HTTPException 500 "name 'pd' is not defined")
  /\ calls (snd run_found) = calls w
  /\ background_tasks (snd run_found) = background_tasks w.
Proof.
  intros Hne run_found run_absent. subst run_found run_absent.
  rewrite !shipped_request by exact Hne. repeat split.
Qed.

Lemma C10_saved_model_witness :
  main.download_pickle example_storage_saved "prophet_P1.pkl"
  = Ok (Some (PyProphet (fitted_model [] (fun _ => 1%float))))
  /\ main.download_pickle example_storage "prophet_P1.pkl" = Ok None
  /\ generate_live_forecast example_round main_globals example_storage_saved no_models
       "P1" example_world
     = generate_live_forecast example_round main_globals example_storage no_models
         "P1" example_world
  /\ fst (generate_live_forecast example_round main_globals example_storage_saved
            no_models "P1" example_world)
     = Raise (HTTPException 500 "name 'pd' is not defined").
Proof.
  destruct (C10_no_model_in_either_branch example_round example_storage_saved
              example_storage no_models "P1" example_world)
    as (Hsame & Hrun & _).
  - vm_compute. discriminate.
  - split; [vm_compute; reflexivity|]. split; [vm_compute; reflexivity|].
    split; [exact Hsame|exact Hrun].
Defined.

(** ** Startup and the storage backends *)

(** [lifespan] reaches its [yield] whenever the storage object could be
    built and the database connected, whatever the model loads did. *)
Lemma lifespan_serves {Store : Type} `{main.StorageBackend Store}
  (storage : Store) (db : DB) :
  lifespan (Ok storage) (Ok db)
  = Ok {| storage := storage; app_db := db; models := load_global_models storage |}.
Proof. reflexivity. Qed.

(** A failed load of the correction model leaves [models] empty. *)
Lemma load_global_models_failure {Store : Type} `{main.StorageBackend Store}
  (storage : Store) (e : exn) :
  main.load_lgbm storage "lgb_model.txt" = Raise e ->
  load_global_models storage = no_models.
Proof. intros Hl. unfold load_global_models. now rewrite Hl. Qed.

(** C2, counterexample.  The manifest expects 8 features and the model file
    reports 7.  [load_global_lgbm] of the local backend does raise the
    contract violation with both numbers, but startup is not aborted:
    [lifespan] never calls it.  With the factory of [blob_storage.py] (the
    one bound at the call) the storage object has no [load_lgbm], the
    [AttributeError] is caught and the application serves without models;
    with the factory of [main.py] the seven-feature model is loaded without
    any check and the application serves with it. *)
Lemma C2_mismatch_does_not_abort_startup :
  expected_features example_manifest = 8
  /\ num_feature seven_feature_model = 7
  /\ blob_storage.LocalStorage_load_manifest mismatched_local
     = Ok (JManifest example_manifest, mismatched_local)
  /\ blob_storage.LocalStorage_load_global_lgbm mismatched_local
       (JManifest example_manifest)
     = Raise (blob_storage.contract_violation 8 7)
  /\ lifespan (blob_storage.get_storage_backend mismatched_env)
       (Ok (db example_world))
     = Ok {| storage := blob_storage.Local mismatched_local;
             app_db := db example_world;
             models := no_models |}
  /\ lifespan (main.get_storage_backend mismatched_env) (Ok (db example_world))
     = Ok {| storage := main.Local {| main.base_dir := "models_local";
                                      main.disk := mismatched_disk |};
             app_db := db example_world;
             models := {| lgb := Some seven_feature_model; encoder := None |} |}.
Proof. repeat split; vm_compute; reflexivity. Qed.

(** C2, amended.  In the local backend a model whose feature count differs
    from the manifest's [expected_features] makes [load_global_lgbm] raise
    a [ValueError] whose message carries both numbers, whether the model
    file sits in the [global_lgbm] folder or flat in the base directory.
    Startup does not depend on it: once the storage object is built and the
    database connected, [lifespan] starts serving; an exception raised
    while loading the global models is caught and leaves [models] empty. *)
Theorem C2_contract_violation_raised_startup_continues
  (self : blob_storage.LocalStorage) (mf : Manifest) (model : Booster) :
  let primary := path_join (path_join (blob_storage.base_dir self) "global_lgbm")
                   (active_global_model mf) in
  let flat := path_join (blob_storage.base_dir self) (active_global_model mf) in
  (files (blob_storage.disk self) !! primary = Some (File (LgbmText model))
   \/ (files (blob_storage.disk self) !! primary = None
       /\ files (blob_storage.disk self) !! flat = Some (File (LgbmText model)))) ->
  num_feature model <> expected_features mf ->
  blob_storage.LocalStorage_load_global_lgbm self (JManifest mf)
  = Raise (blob_storage.contract_violation (expected_features mf) (num_feature model))
  /\ (forall (Store : Type) (backend : main.StorageBackend Store) (storage : Store)
        (db : DB),
        exists app, lifespan (Ok storage) (Ok db) = Ok app
                    /\ (forall e, main.load_lgbm storage "lgb_model.txt" = Raise e ->
                                  models app = no_models)).
Proof.
  intros primary flat Hfile Hne. subst primary flat. split.
  - unfold blob_storage.LocalStorage_load_global_lgbm.
    cbn [blob_storage.manifest_of rbind]. cbv zeta.
    assert (Hneq : (num_feature model =? expected_features mf) = false)
      by now apply Z.eqb_neq.
    destruct Hfile as [Hp|[Hp Hf]].
    + unfold exists_, read.
      repeat (rewrite ?Hp; cbv beta iota delta [negb rbind Booster_load]).
      now rewrite Hneq.
    + unfold exists_, read.
      repeat (rewrite ?Hp, ?Hf; cbv beta iota delta [negb rbind Booster_load]).
      now rewrite Hneq.
  - intros Store backend storage db.
    exists {| storage := storage; app_db := db; models := load_global_models storage |}.
    split; [reflexivity|]. intros e He. cbn [models].
    now apply (load_global_models_failure storage e).
Qed.

Lemma C2_contract_violation_witness :
  blob_storage.LocalStorage_load_global_lgbm mismatched_local (JManifest example_manifest)
  = Raise (blob_storage.contract_violation 8 7)
  /\ (forall (Store : Type) (backend : main.StorageBackend Store) (storage : Store)
        (db : DB),
        exists app, lifespan (Ok storage) (Ok db) = Ok app
                    /\ (forall e, main.load_lgbm storage "lgb_model.txt" = Raise e ->
                                  models app = no_models)).
Proof.
  apply (C2_contract_violation_raised_startup_continues mismatched_local
           example_manifest seven_feature_model).
  - left. vm_compute. reflexivity.
  - vm_compute. discriminate.
Defined.

(** The remote loads of a per-product model never raise. *)
Lemma remote_loads_never_raise (a : blob_storage.AzureBlobStorage)
  (a' : main.AzureBlobStorage) (product_id filename : string) :
  is_ok (blob_storage.AzureBlobStorage_load_prophet_model a product_id) = true
  /\ is_ok (main.AzureBlobStorage_download_pickle a' filename) = true.
Proof.
  unfold blob_storage.AzureBlobStorage_load_prophet_model,
    main.AzureBlobStorage_download_pickle.
  split.
  - now destruct (rbind (read _ _ _) _).
  - now destruct (rbind (read _ _ _) _).
Qed.

(** C4, counterexample.  The saved model of "P1" exists in the container
    but reading it fails with an authorization error.  Both remote loads
    (the one of [blob_storage.py] and the one of [main.py]) return [None],
    which is exactly what they return for a model that does not exist. *)
Lemma C4_remote_read_failure_reported_absent :
  files unreadable_container !! "prophet_individual/P1.json"%string
  = Some (Unreadable AuthorizationFailure)
  /\ blob_storage.AzureBlobStorage_load_prophet_model
       {| blob_storage.container := unreadable_container;
          blob_storage.tmp := empty_medium |} "P1"
     = Ok None
  /\ blob_storage.AzureBlobStorage_load_prophet_model
       {| blob_storage.container := empty_medium;
          blob_storage.tmp := empty_medium |} "P1"
     = Ok None
  /\ main.AzureBlobStorage_download_pickle
       {| main.container := unreadable_container; main.tmp := empty_medium |}
       "prophet_P1.pkl"
     = Ok None.
Proof. repeat split; vm_compute; reflexivity. Qed.

(** C4, amended.  Reading a stored per-product model.  On local disk, when
    the file passes the existence check and opening or reading it then
    fails with [e], the load raises [e] itself; when the existence check
    cannot see the file (it cannot be stat-ed), the load returns [None],
    the answer for an absent model.  In the container every failure is
    caught and the load returns [None].  Saving.  When the write fails with
    [e], the local saves and the remote [upload_pickle] raise [e], and so
    does the remote [save_prophet_model] for a model that was fit; for one
    that was not fit it raises the [ValueError] of the serialiser, before
    anything is uploaded.  There is no [StorageError]: what surfaces is the
    underlying exception. *)
Theorem C4_local_raises_remote_reports_absent (e : exn) (product_id filename : string)
  (l : blob_storage.LocalStorage) (a : blob_storage.AzureBlobStorage)
  (l' : main.LocalStorage) (a' : main.AzureBlobStorage)
  (model : Prophet) (obj : pyobj) :
  let local_json := blob_storage.prophet_path
                      (path_join (blob_storage.base_dir l) "prophet_individual")
                      product_id in
  let remote_json := ("prophet_individual/" +:+ product_id +:+ ".json")%string in
  let local_pkl := main._get_path l' filename in
  (files (blob_storage.disk l) !! local_json = Some (Unreadable e)
   -> blob_storage.LocalStorage_load_prophet_model l product_id = Raise e)
  /\ (files (blob_storage.disk l) !! local_json = Some (Hidden e)
      -> blob_storage.LocalStorage_load_prophet_model l product_id = Ok None)
  /\ (files (main.disk l') !! local_pkl = Some (Unreadable e)
      -> main.LocalStorage_download_pickle l' filename = Raise e)
  /\ (files (main.disk l') !! local_pkl = Some (Hidden e)
      -> main.LocalStorage_download_pickle l' filename = Ok None)
  /\ (files (blob_storage.container a) !! remote_json = Some (Unreadable e)
      -> blob_storage.AzureBlobStorage_load_prophet_model a product_id = Ok None)
  /\ (files (main.container a') !! filename = Some (Unreadable e)
      -> main.AzureBlobStorage_download_pickle a' filename = Ok None)
  /\ (unwritable (blob_storage.disk l) !! local_json = Some e
      -> blob_storage.LocalStorage_save_prophet_model l model product_id = (Raise e, l))
  /\ (unwritable (blob_storage.container a) !! remote_json = Some e
      -> history_dates model <> None
      -> blob_storage.AzureBlobStorage_save_prophet_model a model product_id = Raise e)
  /\ (history_dates model = None
      -> blob_storage.AzureBlobStorage_save_prophet_model a model product_id
         = Raise not_yet_fit)
  /\ (unwritable (main.disk l') !! local_pkl = Some e
      -> main.LocalStorage_upload_pickle l' obj filename = Raise e)
  /\ (unwritable (main.container a') !! filename = Some e
      -> main.AzureBlobStorage_upload_pickle a' obj filename = Raise e).
Proof.
  intros local_json remote_json local_pkl. subst local_json remote_json local_pkl.
  repeat split.
  - intros Hf. unfold blob_storage.LocalStorage_load_prophet_model, exists_, read.
    now rewrite Hf.
  - intros Hf. unfold blob_storage.LocalStorage_load_prophet_model, exists_.
    now rewrite Hf.
  - intros Hf. unfold main.LocalStorage_download_pickle, exists_, read. now rewrite Hf.
  - intros Hf. unfold main.LocalStorage_download_pickle, exists_. now rewrite Hf.
  - intros Hf. unfold blob_storage.AzureBlobStorage_load_prophet_model, read.
    now rewrite Hf.
  - intros Hf. unfold main.AzureBlobStorage_download_pickle, read. now rewrite Hf.
  - intros Hf. unfold blob_storage.LocalStorage_save_prophet_model, truncate, write.
    now rewrite Hf.
  - intros Hf Hfit. unfold blob_storage.AzureBlobStorage_save_prophet_model,
      model_to_json, write.
    destruct (history_dates model); [|congruence]. cbn [rbind]. now rewrite Hf.
  - intros Hfit. unfold blob_storage.AzureBlobStorage_save_prophet_model, model_to_json.
    now rewrite Hfit.
  - intros Hf. unfold main.LocalStorage_upload_pickle, write. now rewrite Hf.
  - intros Hf. unfold main.AzureBlobStorage_upload_pickle, write. now rewrite Hf.
Qed.

(** The cases of C4 on media where the saved model of "P1" cannot be read,
    cannot be seen, or cannot be written. *)
Lemma C4_faulty_medium_witness :
  blob_storage.LocalStorage_load_prophet_model
    (blob_storage.LocalStorage_init faulty_medium "./ml_bin") "P1"
  = Raise AuthorizationFailure
  /\ blob_storage.LocalStorage_load_prophet_model
       (blob_storage.LocalStorage_init hidden_medium "./ml_bin") "P1"
     = Ok None
  /\ main.LocalStorage_download_pickle
       {| main.base_dir := "models_local"; main.disk := faulty_medium |} "prophet_P1.pkl"
     = Raise AuthorizationFailure
  /\ main.LocalStorage_download_pickle
       {| main.base_dir := "models_local"; main.disk := hidden_medium |} "prophet_P1.pkl"
     = Ok None
  /\ blob_storage.AzureBlobStorage_load_prophet_model
       {| blob_storage.container := faulty_medium; blob_storage.tmp := empty_medium |} "P1"
     = Ok None
  /\ main.AzureBlobStorage_download_pickle
       {| main.container := faulty_medium; main.tmp := empty_medium |} "prophet_P1.pkl"
     = Ok None
  /\ blob_storage.LocalStorage_save_prophet_model
       (blob_storage.LocalStorage_init faulty_medium "./ml_bin")
       (fitted_model [] (fun _ => 0%float)) "P1"
     = (Raise AuthorizationFailure,
        blob_storage.LocalStorage_init faulty_medium "./ml_bin")
  /\ blob_storage.AzureBlobStorage_save_prophet_model
       {| blob_storage.container := faulty_medium; blob_storage.tmp := empty_medium |}
       (fitted_model [] (fun _ => 0%float)) "P1"
     = Raise AuthorizationFailure
  /\ blob_storage.AzureBlobStorage_save_prophet_model
       {| blob_storage.container := faulty_medium; blob_storage.tmp := empty_medium |}
       unfitted_model "P1"
     = Raise not_yet_fit
  /\ main.LocalStorage_upload_pickle
       {| main.base_dir := "models_local"; main.disk := faulty_medium |}
       (PyOther "model") "prophet_P1.pkl"
     = Raise AuthorizationFailure
  /\ main.AzureBlobStorage_upload_pickle
       {| main.container := faulty_medium; main.tmp := empty_medium |}
       (PyOther "model") "prophet_P1.pkl"
     = Raise AuthorizationFailure.
Proof.
  pose (local := blob_storage.LocalStorage_init faulty_medium "./ml_bin").
  pose (remote := {| blob_storage.container := faulty_medium;
                     blob_storage.tmp := empty_medium |}).
  pose (local' := {| main.base_dir := "models_local"; main.disk := faulty_medium |}).
  pose (remote' := {| main.container := faulty_medium; main.tmp := empty_medium |}).
  destruct (C4_local_raises_remote_reports_absent AuthorizationFailure "P1"
              "prophet_P1.pkl" local remote local' remote'
              (fitted_model [] (fun _ => 0%float)) (PyOther "model"))
    as (H1 & _ & H3 & _ & H5 & H6 & H7 & H8 & _ & H10 & H11).
  destruct (C4_local_raises_remote_reports_absent PermissionError "P1"
              "prophet_P1.pkl"
              (blob_storage.LocalStorage_init hidden_medium "./ml_bin") remote
              {| main.base_dir := "models_local"; main.disk := hidden_medium |} remote'
              unfitted_model (PyOther "model"))
    as (_ & H2 & _ & H4 & _ & _ & _ & _ & H9 & _ & _).
  split; [apply H1; vm_compute; reflexivity|].
  split; [apply H2; vm_compute; reflexivity|].
  split; [apply H3; vm_compute; reflexivity|].
  split; [apply H4; vm_compute; reflexivity|].
  split; [apply H5; vm_compute; reflexivity|].
  split; [apply H6; vm_compute; reflexivity|].
  split; [apply H7; vm_compute; reflexivity|].
  split; [apply H8; [vm_compute; reflexivity|discriminate]|].
  split; [apply H9; reflexivity|].
  split; [apply H10; vm_compute; reflexivity|].
  apply H11; vm_compute; reflexivity.
Defined.

(** ** Paths *)




Lemma starts_with_slash_app (a b : string) :
  starts_with_slash a = true -> starts_with_slash (a +:+ b) = true.
Proof. destruct a; [discriminate|]. auto. Qed.

(** ** [main.py]: properties of the storage classes *)





(** X3.  On local disk [download_pickle] answers [None] in two cases and
    no other: the existence check does not see the file (it is missing, or
    it cannot be stat-ed), or the file is a pickle of [None].  A file that
    is seen and holds anything else is returned or makes the call raise. *)
Theorem X3_local_download_none_cases (self : main.LocalStorage) (filename : string) :
  main.LocalStorage_download_pickle self filename = Ok None
  <-> (exists_ (main.disk self) (main._get_path self filename) = false
       \/ files (main.disk self) !! main._get_path self filename
          = Some (File PickledNone)).
Proof.
  unfold main.LocalStorage_download_pickle, exists_, read.
  destruct (files (main.disk self) !! main._get_path self filename) as [[c|e|e]|];
    cbn [negb rbind].
  - destruct c; cbn [pickle_load]; split;
      solve [ discriminate | intros [?|?]; discriminate | auto ].
  - split; [discriminate|]. intros [?|?]; discriminate.
  - split; auto.
  - split; auto.
Qed.

Lemma X3_local_download_witness :
  main.LocalStorage_download_pickle example_storage "prophet_P1.pkl" = Ok None
  /\ main.LocalStorage_download_pickle
       {| main.base_dir := "models_local"; main.disk := hidden_medium |} "prophet_P1.pkl"
     = Ok None.
Proof.
  split.
  - apply (X3_local_download_none_cases example_storage "prophet_P1.pkl").
    left. vm_compute. reflexivity.
  - apply (X3_local_download_none_cases
             {| main.base_dir := "models_local"; main.disk := hidden_medium |}
             "prophet_P1.pkl").
    left. vm_compute. reflexivity.
Defined.

(** X4.  [LocalStorage.load_lgbm] looks in the base directory, then in
    [models/global_lgbm/], then at the bare name.  When the existence check
    sees none of the three it raises [FileNotFoundError] with the list of
    the three paths in its message; the first file that is seen is the one
    loaded, so a model further down is shadowed and a file that is not a
    model further up makes the load fail although a model exists below. *)
Theorem X4_load_lgbm_search_order (self : main.LocalStorage) (filename : string)
  (b b' : Booster) :
  let p1 := main._get_path self filename in
  let p2 := ("models/global_lgbm/" +:+ filename)%string in
  let p3 := filename in
  let at_ p := files (main.disk self) !! p in
  let seen p := exists_ (main.disk self) p in
  (seen p1 = false -> seen p2 = false -> seen p3 = false ->
   main.LocalStorage_load_lgbm self filename
   = Raise (FileNotFoundError
              ("LGBM model not found in: " +:+ repr_list [p1; p2; p3])))
  /\ (at_ p1 = Some (File (LgbmText b)) ->
      main.LocalStorage_load_lgbm self filename = Ok b)
  /\ (seen p1 = false -> at_ p2 = Some (File (LgbmText b)) ->
      main.LocalStorage_load_lgbm self filename = Ok b)
  /\ (seen p1 = false -> seen p2 = false -> at_ p3 = Some (File (LgbmText b)) ->
      main.LocalStorage_load_lgbm self filename = Ok b)
  /\ (at_ p1 = Some (File Garbage) -> at_ p2 = Some (File (LgbmText b')) ->
      is_ok (main.LocalStorage_load_lgbm self filename) = false).
Proof.
  intros p1 p2 p3 at_ seen. subst p1 p2 p3 at_ seen.
  unfold main.LocalStorage_load_lgbm. cbn [main.first_existing].
  repeat split.
  - intros H1 H2 H3. rewrite H1, H2, H3. reflexivity.
  - intros H1. unfold exists_, read. rewrite H1. cbv beta iota. rewrite H1. reflexivity.
  - intros H1 H2. rewrite H1. unfold exists_, read. rewrite H2. cbv beta iota.
    rewrite H2. reflexivity.
  - intros H1 H2 H3. rewrite H1, H2. unfold exists_, read. rewrite H3. cbv beta iota.
    rewrite H3. reflexivity.
  - intros H1 _. unfold exists_, read. rewrite H1. cbv beta iota. rewrite H1.
    reflexivity.
Qed.

Lemma X4_shadowed_model_witness :
  main.LocalStorage_load_lgbm example_storage "lgb_model.txt"
  = Raise (FileNotFoundError
             "LGBM model not found in: ['models_local/lgb_model.txt', 'models/global_lgbm/lgb_model.txt', 'lgb_model.txt']")
  /\ is_ok (main.LocalStorage_load_lgbm
              {| main.base_dir := "models_local"; main.disk := shadowed_disk |}
              "lgb_model.txt") = false.
Proof.
  destruct (X4_load_lgbm_search_order example_storage "lgb_model.txt"
              seven_feature_model seven_feature_model) as (Hnone & _).
  destruct (X4_load_lgbm_search_order
              {| main.base_dir := "models_local"; main.disk := shadowed_disk |}
              "lgb_model.txt" seven_feature_model seven_feature_model)
    as (_ & _ & _ & _ & Hshadow).
  split.
  - rewrite Hnone by (vm_compute; reflexivity). vm_compute. reflexivity.
  - apply Hshadow; vm_compute; reflexivity.
Defined.

(** ** [blob_storage.py]: properties of the storage classes *)

Lemma load_manifest_in_place (self : blob_storage.LocalStorage) (j : json) :
  files (blob_storage.disk self) !! blob_storage.manifest_path self
  = Some (File (Json j)) ->
  blob_storage.LocalStorage_load_manifest self = Ok (j, self).
Proof.
  intros H1. unfold blob_storage.LocalStorage_load_manifest, exists_, read.
  rewrite H1. cbv beta iota delta [negb rbind]. rewrite H1. reflexivity.
Qed.

(** X5.  [LocalStorage.load_manifest]: a manifest at [manifest_path] is
    read from there and the object stays as it is; when none is there but
    one lies flat in the base directory, that one is read and
    [manifest_path] is rebound to it; when neither exists the call raises
    [FileNotFoundError] naming [manifest_path]. *)
Theorem X5_load_manifest_resolution (self : blob_storage.LocalStorage) (j : json) :
  let primary := blob_storage.manifest_path self in
  let flat := path_join (blob_storage.base_dir self) "model_manifest.json" in
  let at_ p := files (blob_storage.disk self) !! p in
  (at_ primary = Some (File (Json j)) ->
   blob_storage.LocalStorage_load_manifest self = Ok (j, self))
  /\ (at_ primary = None -> at_ flat = Some (File (Json j)) ->
      blob_storage.LocalStorage_load_manifest self
      = Ok (j, {| blob_storage.base_dir := blob_storage.base_dir self;
                  blob_storage.manifest_path := flat;
                  blob_storage.disk := blob_storage.disk self |}))
  /\ (at_ primary = None -> at_ flat = None ->
      blob_storage.LocalStorage_load_manifest self
      = Raise (FileNotFoundError ("CRITICAL: Manifest missing at " +:+ primary))).
Proof.
  intros primary flat at_. subst primary flat at_.
  unfold blob_storage.LocalStorage_load_manifest, exists_, read.
  repeat split.
  - intros H1. fold (blob_storage.LocalStorage_load_manifest self).
    now apply load_manifest_in_place.
  - intros H1 H2. rewrite H1, H2. cbv beta iota delta [negb rbind].
    cbn [blob_storage.disk blob_storage.manifest_path]. rewrite H2. reflexivity.
  - intros H1 H2. rewrite H1, H2. reflexivity.
Qed.

Lemma X5_load_manifest_witness :
  blob_storage.LocalStorage_load_manifest mismatched_local
  = Ok (JManifest example_manifest, mismatched_local).
Proof.
  destruct (X5_load_manifest_resolution mismatched_local (JManifest example_manifest))
    as (Hprimary & _).
  apply Hprimary. vm_compute. reflexivity.
Defined.

(** X6.  [LocalStorage.load_manifest] is stable: the object it returns,
    asked again, returns the same manifest and itself, so the fallback
    probing happens at most once. *)
Theorem X6_load_manifest_stable (self self' : blob_storage.LocalStorage) (j : json) :
  blob_storage.LocalStorage_load_manifest self = Ok (j, self') ->
  blob_storage.LocalStorage_load_manifest self' = Ok (j, self')
  /\ blob_storage.base_dir self' = blob_storage.base_dir self
  /\ blob_storage.disk self' = blob_storage.disk self
  /\ files (blob_storage.disk self) !! blob_storage.manifest_path self'
     = Some (File (Json j)).
Proof.
  unfold blob_storage.LocalStorage_load_manifest at 1. unfold exists_, read.
  destruct (files (blob_storage.disk self) !! blob_storage.manifest_path self)
    as [[c|e|e]|] eqn:H1; cbv beta iota delta [negb rbind].
  - rewrite H1. destruct c as [o| |b|j0| |]; cbn [json_load]; try discriminate.
    intros [= <- <-].
    split; [now apply load_manifest_in_place|]. auto.
  - rewrite H1. discriminate.
  - destruct (files (blob_storage.disk self)
                !! path_join (blob_storage.base_dir self) "model_manifest.json")
      as [[c|e'|e']|] eqn:H2; try discriminate;
      cbn [blob_storage.disk blob_storage.manifest_path]; rewrite H2;
      [|discriminate].
    destruct c as [o| |b|j0| |]; cbn [json_load]; try discriminate.
    intros [= <- <-].
    split; [|auto]. now apply load_manifest_in_place.
  - destruct (files (blob_storage.disk self)
                !! path_join (blob_storage.base_dir self) "model_manifest.json")
      as [[c|e'|e']|] eqn:H2; try discriminate;
      cbn [blob_storage.disk blob_storage.manifest_path]; rewrite H2;
      [|discriminate].
    destruct c as [o| |b|j0| |]; cbn [json_load]; try discriminate.
    intros [= <- <-].
    split; [|auto]. now apply load_manifest_in_place.
Qed.

Lemma X6_load_manifest_witness :
  blob_storage.LocalStorage_load_manifest mismatched_local
  = Ok (JManifest example_manifest, mismatched_local)
  /\ files (blob_storage.disk mismatched_local)
       !! blob_storage.manifest_path mismatched_local
     = Some (File (Json (JManifest example_manifest))).
Proof.
  destruct (X6_load_manifest_stable mismatched_local mismatched_local
              (JManifest example_manifest)) as (H1 & _ & _ & H4).
  - vm_compute. reflexivity.
  - split; [exact H1|exact H4].
Defined.

(** X7.  Contract of [load_global_lgbm], both backends: a model is
    returned only for a document that is a manifest, and the model returned
    has exactly the manifest's [expected_features]. *)
Theorem X7_loaded_model_meets_contract (l : blob_storage.LocalStorage)
  (a : blob_storage.AzureBlobStorage) (manifest : json) (model : Booster) :
  blob_storage.LocalStorage_load_global_lgbm l manifest = Ok model
  \/ blob_storage.AzureBlobStorage_load_global_lgbm a manifest = Ok model ->
  exists mf, manifest = JManifest mf /\ num_feature model = expected_features mf.
Proof.
  intros [Hl|Ha].
  - unfold blob_storage.LocalStorage_load_global_lgbm in Hl.
    destruct manifest as [mf| | |]; cbn [blob_storage.manifest_of rbind] in Hl;
      try discriminate.
    exists mf. split; [reflexivity|]. cbv zeta in Hl.
    destruct (negb (exists_ _ _)); [discriminate|].
    destruct (rbind (read _ _ _) Booster_load) as [m|e]; cbn [rbind] in Hl;
      [|discriminate].
    destruct (num_feature m =? expected_features mf) eqn:E; cbn [negb] in Hl;
      [|discriminate].
    injection Hl as <-. now apply Z.eqb_eq.
  - unfold blob_storage.AzureBlobStorage_load_global_lgbm in Ha.
    destruct manifest as [mf| | |]; cbn [blob_storage.manifest_of rbind] in Ha;
      try discriminate.
    exists mf. split; [reflexivity|]. cbv zeta in Ha.
    destruct (truncate _ _); cbn [rbind] in Ha; [|discriminate].
    destruct (read _ _ _) as [c|e]; cbn [rbind] in Ha; [|discriminate].
    destruct (write _ _ c) as [t|e]; cbn [rbind] in Ha; [|discriminate].
    destruct (rbind (read t _ _) Booster_load) as [m|e]; cbn [rbind] in Ha;
      [|discriminate].
    destruct (num_feature m =? expected_features mf) eqn:E; cbn [negb] in Ha;
      [|discriminate].
    injection Ha as <-. now apply Z.eqb_eq.
Qed.

Lemma X7_loaded_model_witness :
  exists mf,
    JManifest matched_manifest = JManifest mf
    /\ num_feature seven_feature_model = expected_features mf.
Proof.
  apply (X7_loaded_model_meets_contract matched_local matched_remote
           (JManifest matched_manifest) seven_feature_model).
  left. vm_compute. reflexivity.
Defined.

(** X8.  Given the same manifest and the same model file (in the
    [global_lgbm] folder of the disk, under the [global_lgbm/] prefix of the
    container, the staging path under [/tmp] being writable), the two
    backends accept or reject together.  When the counts agree both return
    that model; when they differ the local backend raises the violation
    with both numbers and the remote one raises
    [ValueError("Cloud Model Contract Violation!")], without them. *)
Theorem X8_backends_agree_on_contract (l : blob_storage.LocalStorage)
  (a : blob_storage.AzureBlobStorage) (mf : Manifest) (model : Booster) :
  files (blob_storage.disk l)
    !! path_join (path_join (blob_storage.base_dir l) "global_lgbm")
         (active_global_model mf)
  = Some (File (LgbmText model)) ->
  files (blob_storage.container a) !! ("global_lgbm/" +:+ active_global_model mf)%string
  = Some (File (LgbmText model)) ->
  unwritable (blob_storage.tmp a) !! path_join "/tmp" (active_global_model mf) = None ->
  (num_feature model = expected_features mf ->
   blob_storage.LocalStorage_load_global_lgbm l (JManifest mf) = Ok model
   /\ blob_storage.AzureBlobStorage_load_global_lgbm a (JManifest mf) = Ok model)
  /\ (num_feature model <> expected_features mf ->
      blob_storage.LocalStorage_load_global_lgbm l (JManifest mf)
      = Raise (blob_storage.contract_violation (expected_features mf)
                 (num_feature model))
      /\ blob_storage.AzureBlobStorage_load_global_lgbm a (JManifest mf)
         = Raise (ValueError "Cloud Model Contract Violation!")).
Proof.
  intros Hl Ha Ht.
  assert (Hlocal : blob_storage.LocalStorage_load_global_lgbm l (JManifest mf)
                   = if negb (num_feature model =? expected_features mf)
                     then Raise (blob_storage.contract_violation (expected_features mf)
                                   (num_feature model))
                     else Ok model).
  { unfold blob_storage.LocalStorage_load_global_lgbm, exists_, read.
    cbn [blob_storage.manifest_of rbind]. cbv zeta.
    repeat (rewrite ?Hl; cbv beta iota delta [negb rbind Booster_load]).
    reflexivity. }
  assert (Hremote : blob_storage.AzureBlobStorage_load_global_lgbm a (JManifest mf)
                    = if negb (num_feature model =? expected_features mf)
                      then Raise (ValueError "Cloud Model Contract Violation!")
                      else Ok model).
  { unfold blob_storage.AzureBlobStorage_load_global_lgbm, truncate, write, read.
    cbn [blob_storage.manifest_of rbind]. cbv zeta.
    rewrite Ht, Ha. cbn [rbind files]. rewrite lookup_insert_eq.
    cbn [rbind Booster_load]. reflexivity. }
  rewrite Hlocal, Hremote. split.
  - intros E. apply Z.eqb_eq in E. rewrite E. auto.
  - intros E. apply Z.eqb_neq in E. rewrite E. auto.
Qed.

Lemma X8_backends_agree_witness :
  blob_storage.LocalStorage_load_global_lgbm matched_local (JManifest matched_manifest)
  = Ok seven_feature_model
  /\ blob_storage.AzureBlobStorage_load_global_lgbm matched_remote
       (JManifest matched_manifest)
     = Ok seven_feature_model.
Proof.
  destruct (X8_backends_agree_on_contract matched_local matched_remote
              matched_manifest seven_feature_model) as (Hyes & _).
  - vm_compute. reflexivity.
  - vm_compute. reflexivity.
  - vm_compute. reflexivity.
  - apply Hyes. reflexivity.
Defined.





(** X11.  A product identifier that starts with a slash leaves the model
    directory: [os.path.join] drops everything before an absolute
    component, so [LocalStorage.load_prophet_model] reads, and
    [save_prophet_model] (of a model that was fit) writes, the file
    [product_id + ".json"] itself, whatever [base_dir] is. *)
Theorem X11_absolute_product_id_escapes (self : blob_storage.LocalStorage)
  (model saved : Prophet) (product_id : string) :
  starts_with_slash product_id = true ->
  (files (blob_storage.disk self) !! (product_id +:+ ".json")%string
   = Some (File (Json (JProphet saved))) ->
   blob_storage.LocalStorage_load_prophet_model self product_id = Ok (Some saved))
  /\ (files (blob_storage.disk self) !! (product_id +:+ ".json")%string = None ->
      blob_storage.LocalStorage_load_prophet_model self product_id = Ok None)
  /\ (unwritable (blob_storage.disk self) !! (product_id +:+ ".json")%string = None ->
      history_dates model <> None ->
      exists self',
        blob_storage.LocalStorage_save_prophet_model self model product_id
        = (Ok tt, self')
        /\ files (blob_storage.disk self') !! (product_id +:+ ".json")%string
           = Some (File (Json (JProphet model)))).
Proof.
  intros Habs.
  assert (Hpath : forall dir, blob_storage.prophet_path dir product_id
                              = (product_id +:+ ".json")%string).
  { intros dir. unfold blob_storage.prophet_path, path_join.
    now rewrite (starts_with_slash_app _ _ Habs). }
  repeat split.
  - intros Hf. unfold blob_storage.LocalStorage_load_prophet_model, exists_, read.
    rewrite Hpath, Hf. reflexivity.
  - intros Hf. unfold blob_storage.LocalStorage_load_prophet_model, exists_, read.
    rewrite Hpath, Hf. reflexivity.
  - intros Hw Hfit.
    unfold blob_storage.LocalStorage_save_prophet_model, truncate, write, model_to_json.
    rewrite Hpath, Hw. cbn [unwritable]. rewrite Hw.
    destruct (history_dates model) eqn:Hd; [|congruence].
    eexists. split; [reflexivity|].
    cbn [blob_storage.disk files]. apply lookup_insert_eq.
Qed.

Lemma X11_absolute_product_id_witness :
  exists self',
    blob_storage.LocalStorage_save_prophet_model matched_local
      (fitted_model [] (fun _ => 0%float)) "/srv/other" = (Ok tt, self')
    /\ files (blob_storage.disk self') !! "/srv/other.json"%string
       = Some (File (Json (JProphet (fitted_model [] (fun _ => 0%float))))).
Proof.
  destruct (X11_absolute_product_id_escapes matched_local
              (fitted_model [] (fun _ => 0%float)) (fitted_model [] (fun _ => 0%float))
              "/srv/other") as (_ & _ & Hsave).
  - reflexivity.
  - apply Hsave; [vm_compute; reflexivity|discriminate].
Defined.

(** X12.  What the two per-product loads answer.  On local disk the answer
    is [None] exactly when the existence check does not see the file: it is
    missing or it cannot be stat-ed.  In the container the answer is a
    model exactly when the blob holds a readable model, and [None] in every
    other case. *)
Theorem X12_per_product_load_answers (l : blob_storage.LocalStorage)
  (a : blob_storage.AzureBlobStorage) (product_id : string) (m : Prophet) :
  (blob_storage.LocalStorage_load_prophet_model l product_id = Ok None
   <-> exists_ (blob_storage.disk l)
         (blob_storage.prophet_path
            (path_join (blob_storage.base_dir l) "prophet_individual") product_id)
       = false)
  /\ (blob_storage.AzureBlobStorage_load_prophet_model a product_id = Ok (Some m)
      <-> files (blob_storage.container a)
            !! ("prophet_individual/" +:+ product_id +:+ ".json")%string
          = Some (File (Json (JProphet m))))
  /\ (blob_storage.AzureBlobStorage_load_prophet_model a product_id = Ok None
      <-> forall m', files (blob_storage.container a)
                       !! ("prophet_individual/" +:+ product_id +:+ ".json")%string
                     <> Some (File (Json (JProphet m')))).
Proof.
  split; [|split].
  - unfold blob_storage.LocalStorage_load_prophet_model, exists_, read.
    destruct (files (blob_storage.disk l) !! _) as [[c|e|e]|]; cbn [negb rbind].
    + split; [|discriminate].
      destruct c as [o| |b|j| |]; cbn; try discriminate. destruct j; cbn; discriminate.
    + split; discriminate.
    + split; reflexivity.
    + split; reflexivity.
  - unfold blob_storage.AzureBlobStorage_load_prophet_model, read.
    destruct (files (blob_storage.container a) !! _) as [[c|e|e]|]; cbn [rbind].
    + destruct c as [o| |b|j| |]; cbn; try (split; discriminate).
      destruct j; cbn; split; congruence.
    + split; discriminate.
    + split; discriminate.
    + split; discriminate.
  - unfold blob_storage.AzureBlobStorage_load_prophet_model, read.
    destruct (files (blob_storage.container a) !! _) as [[c|e|e]|]; cbn [rbind].
    + destruct c as [o| |b|j| |]; cbn; try (split; [discriminate|reflexivity]).
      destruct j; cbn; split; try discriminate; try reflexivity.
      intros H. exfalso. now apply (H m0).
    + split; [discriminate|reflexivity].
    + split; [discriminate|reflexivity].
    + split; [discriminate|reflexivity].
Qed.

Lemma X12_per_product_load_witness :
  blob_storage.LocalStorage_load_prophet_model matched_local "P1" = Ok None
  /\ blob_storage.LocalStorage_load_prophet_model
       (blob_storage.LocalStorage_init hidden_medium "./ml_bin") "P1" = Ok None
  /\ blob_storage.AzureBlobStorage_load_prophet_model matched_remote "P1" = Ok None.
Proof.
  destruct (X12_per_product_load_answers matched_local matched_remote "P1"
              (fitted_model [] (fun _ => 0%float))) as (Hlocal & _ & Hremote).
  destruct (X12_per_product_load_answers
              (blob_storage.LocalStorage_init hidden_medium "./ml_bin")
              matched_remote "P1" (fitted_model [] (fun _ => 0%float)))
    as (Hhidden & _).
  split; [|split].
  - apply Hlocal. vm_compute. reflexivity.
  - apply Hhidden. vm_compute. reflexivity.
  - apply Hremote. intros m'. vm_compute. discriminate.
Defined.

(** X25.  [load_encoder] reads the encoder file the manifest names: the
    local backend from the [global_lgbm] folder and, when it is not there,
    flat from the base directory, raising [FileNotFoundError] when it is in
    neither place; the remote backend from under the [global_lgbm/] prefix.
    Neither checks what the document is: whatever JSON is stored there is
    returned. *)
Theorem X25_load_encoder_resolution (l : blob_storage.LocalStorage)
  (a : blob_storage.AzureBlobStorage) (mf : Manifest) (j : json) :
  let primary := path_join (path_join (blob_storage.base_dir l) "global_lgbm")
                   (encoder_file mf) in
  let flat := path_join (blob_storage.base_dir l) (encoder_file mf) in
  let at_ p := files (blob_storage.disk l) !! p in
  (at_ primary = Some (File (Json j)) ->
   blob_storage.LocalStorage_load_encoder l (JManifest mf) = Ok j)
  /\ (at_ primary = None -> at_ flat = Some (File (Json j)) ->
      blob_storage.LocalStorage_load_encoder l (JManifest mf) = Ok j)
  /\ (at_ primary = None -> at_ flat = None ->
      blob_storage.LocalStorage_load_encoder l (JManifest mf)
      = Raise (FileNotFoundError flat))
  /\ (files (blob_storage.container a) !! ("global_lgbm/" +:+ encoder_file mf)%string
      = Some (File (Json j)) ->
      blob_storage.AzureBlobStorage_load_encoder a (JManifest mf) = Ok j).
Proof.
  intros primary flat at_. subst primary flat at_.
  unfold blob_storage.LocalStorage_load_encoder,
    blob_storage.AzureBlobStorage_load_encoder, exists_, read.
  cbn [blob_storage.config_of rbind]. cbv zeta.
  repeat split.
  - intros H1. repeat (rewrite ?H1; cbv beta iota delta [negb rbind json_load]).
    reflexivity.
  - intros H1 H2.
    repeat (rewrite ?H1, ?H2; cbv beta iota delta [negb rbind json_load]).
    reflexivity.
  - intros H1 H2.
    repeat (rewrite ?H1, ?H2; cbv beta iota delta [negb rbind json_load]).
    reflexivity.
  - intros H1. rewrite H1. reflexivity.
Qed.

Lemma X25_load_encoder_witness :
  blob_storage.LocalStorage_load_encoder matched_local (JManifest matched_manifest)
  = Ok (JEncoder {[ "P1"%string := 1 ]})
  /\ blob_storage.AzureBlobStorage_load_encoder matched_remote (JManifest matched_manifest)
     = Ok (JEncoder {[ "P1"%string := 1 ]}).
Proof.
  destruct (X25_load_encoder_resolution matched_local matched_remote matched_manifest
              (JEncoder {[ "P1"%string := 1 ]})) as (_ & Hflat & _ & Hremote).
  split.
  - apply Hflat; vm_compute; reflexivity.
  - apply Hremote. vm_compute. reflexivity.
Defined.

(** X27.  Startup with the factory of [blob_storage.py].  In production
    without a connection string the storage object cannot be built and
    startup is aborted with the [ImportError] of the constructor.  With
    [APP_ENV] unset the local backend under [./ml_bin] is built; then a
    failed database connection aborts startup with its error, and
    otherwise the application starts, with no global model loaded. *)
Theorem X27_startup_outcomes (env : Environment) (connect : result DB) :
  (APP_ENV env = Some "production"%string ->
   AZURE_STORAGE_CONNECTION_STRING env = None ->
   exists msg,
     lifespan (blob_storage.get_storage_backend env) connect
     = Raise (PyError "ImportError" msg))
  /\ (APP_ENV env = None ->
      forall e, connect = Raise e ->
        lifespan (blob_storage.get_storage_backend env) connect = Raise e)
  /\ (APP_ENV env = None ->
      forall db0, connect = Ok db0 ->
        lifespan (blob_storage.get_storage_backend env) connect
        = Ok {| storage := blob_storage.Local
                             (blob_storage.LocalStorage_init (local_disk env) "./ml_bin");
                app_db := db0;
                models := no_models |}).
Proof.
  unfold lifespan, blob_storage.get_storage_backend. repeat split.
  - intros -> Hc. unfold blob_storage.AzureBlobStorage_init. rewrite Hc.
    destruct (azure_sdk_installed env); cbn [negb rbind]; eauto.
  - intros -> e ->. reflexivity.
  - intros -> db0 ->. reflexivity.
Qed.

Lemma X27_startup_witness :
  lifespan (blob_storage.get_storage_backend mismatched_env) (Ok (db example_world))
  = Ok {| storage := blob_storage.Local mismatched_local;
          app_db := db example_world;
          models := no_models |}.
Proof.
  destruct (X27_startup_outcomes mismatched_env (Ok (db example_world)))
    as (_ & _ & Hstart).
  apply Hstart; reflexivity.
Defined.

(** ** Sorting *)

Lemma insert_sorted_perm {A} (key : A -> Z) (a : A) (l : list A) :
  insert_sorted key a l ≡ₚ a :: l.
Proof.
  induction l as [|b l IH]; simpl; [reflexivity|].
  destruct (key a <? key b); [reflexivity|].
  rewrite IH. apply Permutation_swap.
Qed.

Lemma sort_by_perm {A} (key : A -> Z) (l : list A) : sort_by key l ≡ₚ l.
Proof.
  induction l as [|a l IH]; [reflexivity|].
  unfold sort_by in *. simpl. rewrite insert_sorted_perm. now rewrite IH.
Qed.

Lemma insert_sorted_ascending {A} (key : A -> Z) (a : A) (l : list A) :
  ascending key l -> ascending key (insert_sorted key a l).
Proof.
  induction l as [|b l IH]; intros Hl; simpl.
  - split; [|exact I]. intros x Hx. inversion Hx.
  - destruct Hl as [Hb Hl]. destruct (key a <? key b) eqn:E.
    + apply Z.ltb_lt in E. split; [|split; assumption].
      intros x Hx. apply elem_of_cons in Hx as [->|Hx]; [lia|].
      specialize (Hb x Hx). lia.
    + apply Z.ltb_ge in E. split; [|now apply IH].
      intros x Hx. apply elem_of_insert_sorted in Hx as [->|Hx]; [lia|auto].
Qed.

Lemma sort_by_ascending {A} (key : A -> Z) (l : list A) : ascending key (sort_by key l).
Proof.
  induction l as [|a l IH]; [exact I|].
  unfold sort_by in *. simpl. now apply insert_sorted_ascending.
Qed.

Lemma sort_by_nil {A} (key : A -> Z) (l : list A) : sort_by key l = [] <-> l = [].
Proof.
  split; [|now intros ->].
  intros E. apply (f_equal length) in E. rewrite length_sort_by in E.
  now destruct l.
Qed.

(** ** The read endpoints *)

(** X13.  [get_history] answers 404 exactly when the table holds no row of
    the product.  Otherwise it returns the product's rows, each as often as
    the table holds it and no other row, in ascending order of date, and
    it leaves the world as it is. *)
Theorem X13_get_history_rows_in_date_order (product_id : string) (w : World) :
  let table := filter (fun r => product_code r = product_id) (saleshistory (db w)) in
  (table = [] ->
   get_history product_id w
   = (Raise (HTTPException 404 "Product history not found"), w))
  /\ (table <> [] ->
      exists rows,
        get_history product_id w = (Ok rows, w)
        /\ rows ≡ₚ table
        /\ ascending ds rows
        /\ Forall (fun r => product_code r = product_id) rows).
Proof.
  intros table. unfold get_history, bind, saleshistory_find_many.
  fold table. split.
  - intros ->. reflexivity.
  - intros Hne. exists (sort_by ds table).
    destruct (sort_by ds table) as [|r rows] eqn:E.
    { apply sort_by_nil in E. contradiction. }
    rewrite <- E. split; [reflexivity|].
    split; [apply sort_by_perm|]. split; [apply sort_by_ascending|].
    apply Forall_forall. intros x Hx. apply elem_of_sort_by in Hx.
    unfold table in Hx. now apply list_elem_of_filter in Hx as [Hx _].
Qed.

(** X14.  [get_forecast] answers 404 exactly when no forecast is persisted
    for the product.  Otherwise it returns the product's persisted rows and
    no other, in ascending order of forecast date, and leaves the world as
    it is. *)
Theorem X14_get_forecast_rows_in_date_order (product_id : string) (w : World) :
  (persisted product_id w = [] ->
   get_forecast product_id w
   = (Raise (HTTPException 404 "Forecasts not found for this product"), w))
  /\ (persisted product_id w <> [] ->
      exists rows,
        get_forecast product_id w = (Ok rows, w)
        /\ rows ≡ₚ persisted product_id w
        /\ ascending forecast_date rows
        /\ Forall (fun r => fr_product_code r = product_id) rows).
Proof.
  unfold get_forecast, bind, salesforecast_find_many.
  fold (persisted product_id w). split.
  - intros ->. reflexivity.
  - intros Hne. exists (sort_by forecast_date (persisted product_id w)).
    destruct (sort_by forecast_date (persisted product_id w)) as [|r rows] eqn:E.
    { apply sort_by_nil in E. contradiction. }
    rewrite <- E. split; [reflexivity|].
    split; [apply sort_by_perm|]. split; [apply sort_by_ascending|].
    apply Forall_forall. intros x Hx. apply elem_of_sort_by in Hx.
    unfold persisted in Hx. now apply list_elem_of_filter in Hx as [Hx _].
Qed.

Lemma X13_get_history_witness :
  get_history "P2" example_world
  = (Raise (HTTPException 404 "Product history not found"), example_world)
  /\ exists rows,
       get_history "P1" example_world = (Ok rows, example_world)
       /\ ascending ds rows.
Proof.
  split.
  - destruct (X13_get_history_rows_in_date_order "P2" example_world) as (Hnone & _).
    apply Hnone. vm_compute. reflexivity.
  - destruct (X13_get_history_rows_in_date_order "P1" example_world) as (_ & Hsome).
    destruct Hsome as (rows & Hrun & _ & Hasc & _).
    + vm_compute. discriminate.
    + exists rows. auto.
Defined.

Lemma X14_get_forecast_witness :
  get_forecast "P2" example_world
  = (Raise (HTTPException 404 "Forecasts not found for this product"), example_world)
  /\ exists rows,
       get_forecast "P1" example_world = (Ok rows, example_world)
       /\ Forall (fun r => fr_product_code r = "P1"%string) rows.
Proof.
  split.
  - destruct (X14_get_forecast_rows_in_date_order "P2" example_world) as (Hnone & _).
    apply Hnone. vm_compute. reflexivity.
  - destruct (X14_get_forecast_rows_in_date_order "P1" example_world) as (_ & Hsome).
    destruct Hsome as (rows & Hrun & _ & _ & Hall).
    + vm_compute. discriminate.
    + exists rows. auto.
Defined.

(** ** The live-forecast handler in any namespace *)

(** X15.  Whatever the outcome of [generate_live_forecast], the sales
    history table is as before and so are the forecast rows of every other
    product. *)
Theorem X15_request_touches_only_its_product {Store : Type} `{main.StorageBackend Store}
  (round_ : float -> Z -> float) (g : Namespace)
  (storage : Store) (models : Models) (product_id : string) (w : World) :
  let w' := snd (generate_live_forecast round_ g storage models product_id w) in
  saleshistory (db w') = saleshistory (db w)
  /\ persisted_others product_id w' = persisted_others product_id w
  /\ (forall other, other <> product_id -> persisted other w' = persisted other w).
Proof.
  intros w'. subst w'. rewrite generate_world.
  pose proof (body_outcome round_ g storage models product_id w) as Hout.
  unfold post in Hout. split; [apply Hout|].
  now apply (outcome_isolation g models product_id w _ _ Hout).
Qed.

(** X16.  A request that fails reports status 500 with the text of the
    underlying error as detail, and the sales history is as before.
    Either it failed before line 296, and then it has changed neither the
    store nor the queue of background tasks; or a database write failed,
    and then the model upload is already queued, and the product's old
    forecast rows are all still there (the delete failed) or all gone (the
    insert failed), with none of the new ones.  With [main.py] as it
    stands it is always the first: a failed request changes nothing. *)
Theorem X16_failed_request {Store : Type} `{main.StorageBackend Store}
  (round_ : float -> Z -> float) (g : Namespace)
  (storage : Store) (models : Models) (product_id : string) (w w' : World) (e : exn) :
  generate_live_forecast round_ g storage models product_id w = (Raise e, w') ->
  (exists cause,
     live_forecast_body round_ g storage models product_id w = (Raise cause, w')
     /\ e = HTTPException 500 (str cause))
  /\ saleshistory (db w') = saleshistory (db w)
  /\ ((db w' = db w /\ background_tasks w' = background_tasks w)
      \/ ((exists m, background_tasks w'
                     = background_tasks w ++ [(m, "prophet_" +:+ product_id +:+ ".pkl")])
          /\ ((exists x rest, db_errors w = Some x :: rest
                              /\ persisted product_id w' = persisted product_id w)
              \/ (exists x rest, db_errors w = None :: Some x :: rest
                                 /\ persisted product_id w' = []))))
  /\ (g = main_globals -> w' = w).
Proof.
  intros Hrun.
  pose proof (body_outcome round_ g storage models product_id w) as Hout.
  pose proof (fun Hpd => body_without_pd round_ g storage models product_id w Hpd)
    as Hshipped.
  unfold post in Hout. revert Hrun. unfold generate_live_forecast, try_except.
  destruct (live_forecast_body round_ g storage models product_id w)
    as [[resp|cause] w0] eqn:Hb; [discriminate|].
  unfold raise. intros [= <- <-]. cbn [fst snd] in Hout.
  split; [eauto|]. destruct Hout as (Hhist & Hout). split; [exact Hhist|]. split.
  - destruct Hout as [(_ & Hdb & Hbg)|(Hbg & _ & _ & Hwrites)]; [now left|right].
    split; [exact Hbg|].
    destruct Hwrites as [(x & rest & Herr & _ & Hfc)|[(x & rest & Herr & _ & Hfc)
                         |(resp & rows & Hok & _)]]; [| |discriminate].
    + left. exists x, rest. split; [exact Herr|]. unfold persisted. now rewrite Hfc.
    + right. exists x, rest. split; [exact Herr|]. unfold persisted. rewrite Hfc.
      apply persisted_after_delete.
  - intros ->. specialize (Hshipped eq_refl). congruence.
Qed.

Lemma X16_failure_witness :
  generate_live_forecast example_round main_globals shipped_storage no_models "P1"
    example_world
  = (Raise (HTTPException 500 "name 'pd' is not defined"), example_world)
  /\ exists w',
       generate_live_forecast example_round bound_globals example_storage
         example_models "P1" example_world_failing_insert
       = (Raise (HTTPException 500 "Client is not connected to the query engine"), w')
       /\ length (background_tasks w') = 1%nat
       /\ persisted "P1" example_world_failing_insert <> []
       /\ persisted "P1" w' = [].
Proof.
  split; [vm_compute; reflexivity|].
  destruct (generate_live_forecast example_round bound_globals example_storage
              example_models "P1" example_world_failing_insert) as [r w'] eqn:Hrun.
  assert (Hr : r = Raise (HTTPException 500
                            "Client is not connected to the query engine")).
  { apply (f_equal fst) in Hrun. cbn [fst] in Hrun. rewrite <- Hrun.
    vm_compute. reflexivity. }
  subst r. exists w'. split; [reflexivity|].
  destruct (X16_failed_request example_round bound_globals example_storage
              example_models "P1" example_world_failing_insert w' _ Hrun)
    as (_ & _ & [(Hdb & Hbg)|((m & Hbg) & [(x & rest & Herr & _)
                                            |(x & rest & _ & Hgone)])] & _).
  - exfalso. apply (f_equal (fun p => length (salesforecast (db (snd p))))) in Hrun.
    cbn [snd] in Hrun. rewrite Hdb in Hrun. vm_compute in Hrun. discriminate.
  - discriminate.
  - split; [rewrite Hbg; reflexivity|]. split; [vm_compute; discriminate|exact Hgone].
Defined.

(** ** Startup and the requests that follow it *)

(** X17.  Degraded startup.  When, at startup, the correction model could
    not be loaded, or the encoder could not be loaded, or the encoder file
    was missing, the application still starts, and from then on every
    live-forecast request is answered with status 500 and changes nothing
    in the store. *)
Theorem X17_requests_fail_after_degraded_startup {Store : Type}
  `{main.StorageBackend Store}
  (round_ : float -> Z -> float) (g : Namespace)
  (s : Store) (db0 : DB) (product_id : string) (w : World) :
  is_ok (main.load_lgbm s "lgb_model.txt") = false
  \/ is_ok (main.download_pickle s "product_encoder.pkl") = false
  \/ main.download_pickle s "product_encoder.pkl" = Ok None ->
  exists app,
    lifespan (Ok s) (Ok db0) = Ok app
    /\ storage app = s
    /\ exists detail w',
         generate_live_forecast round_ g (storage app) (models app) product_id w
         = (Raise (HTTPException 500 detail), w')
         /\ db w' = db w.
Proof.
  intros Hdeg.
  exists {| storage := s; app_db := db0; models := load_global_models s |}.
  split; [reflexivity|]. split; [reflexivity|]. cbn [storage models].
  assert (Hm : lgb (load_global_models s) = None
               \/ encoder (load_global_models s) = None).
  { unfold load_global_models.
    destruct (main.load_lgbm s "lgb_model.txt") as [b|e]; [|now left].
    destruct (main.download_pickle s "product_encoder.pkl") as [[o|]|e];
      [|now right|now right].
    destruct Hdeg as [Hd|[Hd|Hd]]; discriminate. }
  pose proof (body_outcome round_ g s (load_global_models s) product_id w) as Hout.
  unfold post in Hout. unfold generate_live_forecast, try_except.
  destruct (live_forecast_body round_ g s (load_global_models s) product_id w)
    as [[resp|cause] w'] eqn:Hb; cbn [fst snd] in Hout;
    destruct Hout as (_ & [(Hfail & Hdb & _)|(_ & (b & enc & Hb' & Henc) & _)]);
    try discriminate;
    try (exfalso; destruct Hm as [Hm|Hm]; congruence).
  exists (str cause), w'. split; [reflexivity|exact Hdb].
Qed.

Lemma X17_degraded_startup_witness :
  exists app,
    lifespan (Ok shipped_storage) (Ok (db example_world)) = Ok app
    /\ storage app = shipped_storage
    /\ exists detail w',
         generate_live_forecast example_round main_globals (storage app) (models app)
           "P1" example_world
         = (Raise (HTTPException 500 detail), w')
         /\ db w' = db example_world.
Proof.
  apply (X17_requests_fail_after_degraded_startup example_round main_globals
           shipped_storage (db example_world) "P1" example_world).
  left. vm_compute. reflexivity.
Defined.

(** X18.  The storage object that [lifespan] gets from the factory bound at
    its call is of a class of [blob_storage.py], which has none of
    [load_lgbm], [download_pickle], [upload_pickle].  With such an object
    startup leaves [models] empty.  A live-forecast request for a product
    that has history is then answered with status 500 and changes nothing:
    with [main.py] as it stands the detail is the unbound [pd] of line 242;
    once [pd] and [np] are bound, it is the missing [download_pickle] of
    line 248. *)
Theorem X18_blob_storage_object_cannot_serve
  (round_ : float -> Z -> float) (g : Namespace)
  (s : blob_storage.Storage) (models : Models) (product_id : string) (w : World) :
  history_of product_id w <> [] ->
  load_global_models s = no_models
  /\ (g = main_globals ->
      generate_live_forecast round_ g s models product_id w
      = (Raise (HTTPException 500 "name 'pd' is not defined"), w))
  /\ (forall pd np, g_pd g = Some pd -> g_np g = Some np ->
      generate_live_forecast round_ g s models product_id w
      = (Raise (HTTPException 500
                  ("'" +:+ blob_storage.class_name s
                   +:+ "' object has no attribute 'download_pickle'")), w)).
Proof.
  intros Hne. split; [reflexivity|]. split.
  - intros ->. now apply shipped_request.
  - intros pd np Hpd Hnp.
    unfold generate_live_forecast, try_except, live_forecast_body.
    unfold bind at 1. unfold saleshistory_find_many. fold (history_of product_id w).
    destruct (history_of product_id w) as [|r0 h]; [congruence|].
    unfold bind at 1. rewrite Hpd. cbn [global lift].
    unfold bind at 1. rewrite Hnp. reflexivity.
Qed.

Lemma X18_blob_storage_object_witness :
  generate_live_forecast example_round main_globals shipped_storage no_models "P1"
    example_world
  = (Raise (HTTPException 500 "name 'pd' is not defined"), example_world)
  /\ generate_live_forecast example_round bound_globals shipped_storage no_models "P1"
       example_world
     = (Raise (HTTPException 500
                 "'LocalStorage' object has no attribute 'download_pickle'"),
        example_world).
Proof.
  destruct (X18_blob_storage_object_cannot_serve example_round main_globals
              shipped_storage no_models "P1" example_world)
    as (_ & Hshipped & _).
  { vm_compute. discriminate. }
  destruct (X18_blob_storage_object_cannot_serve example_round bound_globals
              shipped_storage no_models "P1" example_world)
    as (_ & _ & Hbound).
  { vm_compute. discriminate. }
  split.
  - apply Hshipped. reflexivity.
  - apply (Hbound pandas_module example_numpy); reflexivity.
Defined.

(** X26.  [main.py] as it stands never answers a live-forecast request
    with a forecast.  Whatever the storage object, the loaded models and
    the store, the request is answered with status 500: the detail is the
    404 text when the product has no history and the unbound name [pd]
    when it has; and the world is left exactly as it was. *)
Theorem X26_shipped_handler_never_succeeds {Store : Type} `{main.StorageBackend Store}
  (round_ : float -> Z -> float)
  (storage : Store) (models : Models) (product_id : string) (w : World) :
  generate_live_forecast round_ main_globals storage models product_id w
  = (Raise (HTTPException 500
              match history_of product_id w with
              | [] => "404: No sales history found. Add data to 'sales_history' first."
              | _ => "name 'pd' is not defined"
              end), w).
Proof.
  unfold generate_live_forecast, try_except.
  rewrite body_without_pd by reflexivity.
  destruct (history_of product_id w); reflexivity.
Qed.

(** ** The metrics endpoint *)

Lemma head_sort_by {A} (key : A -> Z) (l : list A) (a : A) :
  head (sort_by key l) = Some a ->
  a ∈ l /\ forall b, b ∈ l -> key a <= key b.
Proof.
  intros Hh. pose proof (sort_by_ascending key l) as Hasc.
  destruct (sort_by key l) as [|x rest] eqn:E; [discriminate|].
  injection Hh as ->. destruct Hasc as [Hmin _].
  assert (Hmem : forall b, b ∈ l <-> b ∈ a :: rest).
  { intros b. now rewrite <- E, elem_of_sort_by. }
  split.
  - apply Hmem, elem_of_cons. now left.
  - intros b Hb. apply Hmem, elem_of_cons in Hb as [->|Hb]; [lia|auto].
Qed.

(** X20.  [get_metrics] never fails.  On an empty metric table it returns
    the placeholder: version "None", error and accuracy 0, trained "now".
    Otherwise it reports a row of the table, and no row of the table has a
    later training date than the one reported. *)
Theorem X20_get_metrics_latest_or_placeholder (table : list ModelMetric) (now : Z) :
  (table = [] ->
   get_metrics table now
   = {| mr_model_version := "None"; mr_wmape := Some 0%float;
        mr_accuracy := Some 0%float; last_trained := now |})
  /\ (table <> [] ->
      exists metric,
        metric ∈ table
        /\ (forall m, m ∈ table -> training_run_date m <= training_run_date metric)
        /\ get_metrics table now
           = {| mr_model_version := model_version metric;
                mr_wmape := wmape metric;
                mr_accuracy := accuracy metric;
                last_trained := training_run_date metric |}).
Proof.
  split.
  - intros ->. reflexivity.
  - intros Hne. unfold get_metrics, modelmetric_find_first.
    destruct (head (sort_by (fun m => - training_run_date m) table)) as [metric|] eqn:E.
    + apply head_sort_by in E as [Hin Hmin]. exists metric.
      split; [exact Hin|]. split; [|reflexivity].
      intros m Hm. specialize (Hmin m Hm). cbn in Hmin. lia.
    + exfalso. apply Hne.
      destruct (sort_by _ table) eqn:E'; [|discriminate].
      now apply sort_by_nil in E'.
Qed.

Lemma X20_get_metrics_witness :
  exists metric,
    metric ∈ example_metrics
    /\ (forall m, m ∈ example_metrics -> training_run_date m <= training_run_date metric)
    /\ last_trained (get_metrics example_metrics 0) = training_run_date metric.
Proof.
  destruct (X20_get_metrics_latest_or_placeholder example_metrics 0) as (_ & Hsome).
  destruct Hsome as (metric & Hin & Hmax & Hget).
  - discriminate.
  - exists metric. rewrite Hget. auto.
Defined.

(** ** The encoding step *)

Lemma index_of_position (x : string) (l : list string) (i : Z) :
  index_of x l = Some i ->
  0 <= i < Z.of_nat (length l) /\ l !! Z.to_nat i = Some x
  /\ forall j, (j < Z.to_nat i)%nat -> l !! j <> Some x.
Proof.
  revert i. induction l as [|c l IH]; intros i; simpl; [discriminate|].
  destruct (String.eqb x c) eqn:E.
  - intros [= <-]. apply String.eqb_eq in E. subst c.
    split; [lia|]. split; [reflexivity|]. intros j Hj. simpl in Hj. lia.
  - apply String.eqb_neq in E.
    destruct (index_of x l) as [k|]; [|discriminate].
    intros [= <-]. destruct (IH k eq_refl) as (Hk & Hl & Hfirst).
    split; [lia|]. split.
    + replace (Z.to_nat (k + 1)) with (S (Z.to_nat k)) by lia. exact Hl.
    + intros j Hj. destruct j as [|j]; simpl; [congruence|].
      apply Hfirst. lia.
Qed.

(** X21.  The product code is a position or the sentinel.  With a loaded
    encoder, a known product is encoded as the position of its first
    occurrence in [classes_], a non-negative number that decodes back to
    the product, so two known products never share a code; the code is -1
    exactly when the product is unknown. *)
Theorem X21_code_is_position_or_sentinel (enc : LabelEncoder) (product_id : string) :
  (product_id ∈ classes_ enc ->
   exists i,
     encode (Some (PyEncoder enc)) product_id = Ok i
     /\ 0 <= i < Z.of_nat (length (classes_ enc))
     /\ classes_ enc !! Z.to_nat i = Some product_id)
  /\ (encode (Some (PyEncoder enc)) product_id = Ok (-1)
      <-> product_id ∉ classes_ enc)
  /\ (forall other i,
        encode (Some (PyEncoder enc)) product_id = Ok i ->
        encode (Some (PyEncoder enc)) other = Ok i ->
        0 <= i -> other = product_id).
Proof.
  assert (Hknown : forall p, p ∈ classes_ enc ->
            exists i, encode (Some (PyEncoder enc)) p = Ok i
                      /\ 0 <= i < Z.of_nat (length (classes_ enc))
                      /\ classes_ enc !! Z.to_nat i = Some p).
  { intros p Hp. unfold encode. cbn [the_encoder rbind].
    rewrite bool_decide_eq_true_2 by exact Hp. unfold transform.
    destruct (index_of_elem _ _ Hp) as (i & Hi & _). rewrite Hi.
    apply index_of_position in Hi as (Hr & Hl & _). eauto. }
  assert (Hunknown : forall p, p ∉ classes_ enc ->
            encode (Some (PyEncoder enc)) p = Ok (-1)).
  { intros p Hp. unfold encode. cbn [the_encoder rbind].
    now rewrite bool_decide_eq_false_2 by exact Hp. }
  split; [apply Hknown|]. split.
  - split; [|apply Hunknown].
    intros He Hin. destruct (Hknown _ Hin) as (i & Hi & Hr & _).
    rewrite Hi in He. injection He as ->. lia.
  - intros other i Hp Ho Hi.
    destruct (decide (product_id ∈ classes_ enc)) as [Hin|Hin];
      [|rewrite (Hunknown _ Hin) in Hp; injection Hp as <-; lia].
    destruct (decide (other ∈ classes_ enc)) as [Hin'|Hin'];
      [|rewrite (Hunknown _ Hin') in Ho; injection Ho as <-; lia].
    destruct (Hknown _ Hin) as (j & Hj & _ & Hlj).
    destruct (Hknown _ Hin') as (k & Hk & _ & Hlk).
    rewrite Hj in Hp. rewrite Hk in Ho.
    injection Hp as ->. injection Ho as ->. congruence.
Qed.

Lemma X21_code_witness :
  exists i,
    encode (encoder example_models) "P1" = Ok i
    /\ 0 <= i
    /\ encode (encoder example_models) "P9" = Ok (-1).
Proof.
  destruct (X21_code_is_position_or_sentinel {| classes_ := ["P0"; "P1"]%string |} "P1")
    as (Hknown & _ & _).
  destruct (X21_code_is_position_or_sentinel {| classes_ := ["P0"; "P1"]%string |} "P9")
    as (_ & Hsentinel & _).
  destruct Hknown as (i & Hi & Hr & _).
  - apply list_elem_of_In. simpl. auto.
  - exists i. split; [exact Hi|]. split; [lia|].
    apply Hsentinel. intros Hin. apply list_elem_of_In in Hin. simpl in Hin.
    destruct Hin as [E|[E|[]]]; discriminate.
Defined.
